(** * A shallow embedding of [latest.py]: the [PaperClassifier] pipeline

    The development follows the Python source function by function.

    - Python [int] is [Z].  Python [float] values (similarity scores,
      means, ratios, metrics) are exact rationals [Q]: rounding is not
      modelled.  For the ratio of [_similar_strings], the quotient of
      two integers compared with the literal [0.7], the rational and
      the floating comparison agree for strings shorter than 2^49
      characters, quotient and literal being correctly rounded.
    - Python [str] is [string] over single-byte characters: [lower]
      acts on [A-Z], and the whitespace of [strip] is the ASCII part of
      [str.isspace].
    - An exception is a value of [Py.exn], which stands for the
      subclasses of [Exception]; code that may raise returns
      [Py.result A], and a method that also reads or writes [self] is
      a function from the instance to [Py.result (A * instance)].
    - The vector store, the question-answering model and the seeded
      shuffle of [KFold] are outside the source file; they are the
      fields of the class [Externals], over which every definition and
      theorem is generic.  [KFold] itself is modelled as scikit-learn
      implements it. *)

From Stdlib Require Import ZArith QArith Qminmax Lqa Lia.
From Stdlib Require Import List String Ascii Bool Arith Permutation.
From Stdlib Require Import DecimalString.
Import ListNotations.

Set Implicit Arguments.

Local Open Scope list_scope.
Local Open Scope string_scope.

(** ** Python primitives *)

Module Py.

(** The subclasses of [Exception] that the source can meet.
    [RuntimeError] stands for any exception raised inside an external
    service, carrying the text that [str(e)] returns. *)
Inductive exn : Type :=
| ZeroDivisionError
| KeyError (key : string)
| ValueError (msg : string)
| IndexError (msg : string)
| RuntimeError (msg : string).

(** [repr] of a key without quote characters. *)
Definition repr (s : string) : string := "'" ++ s ++ "'".

(** [str(e)]. *)
Definition str_exn (e : exn) : string :=
  match e with
  | ZeroDivisionError => "division by zero"
  | KeyError k => repr k
  | ValueError m => m
  | IndexError m => m
  | RuntimeError m => m
  end.

(** The error monad of code that may raise. *)
Definition result (A : Type) : Type := (exn + A)%type.

Definition ret {A} (a : A) : result A := inr a.
Definition raise {A} (e : exn) : result A := inl e.
Definition bind {A B} (m : result A) (k : A -> result B) : result B :=
  match m with
  | inl e => inl e
  | inr a => k a
  end.

(** [try: m except Exception as e: h e]. *)
Definition try_except {A} (m : result A) (h : exn -> A) : A :=
  match m with
  | inl e => h e
  | inr a => a
  end.

(** A [for] loop whose body may raise, threading the loop state. *)
Fixpoint for_each {A S} (body : S -> A -> result S) (l : list A) (s : S)
  : result S :=
  match l with
  | [] => ret s
  | a :: l' => bind (body s a) (for_each body l')
  end.

(** *** Numbers *)

Definition int_to_float (n : Z) : Q := inject_Z n.

(** [a / b] on integers: true division. *)
Definition truediv (a b : Z) : result Q :=
  if (b =? 0)%Z then raise ZeroDivisionError
  else ret (int_to_float a / int_to_float b)%Q.

(** [a / b] on floats. *)
Definition fdiv (a b : Q) : result Q :=
  if Qeq_bool b 0 then raise ZeroDivisionError else ret (a / b)%Q.

(** [a > b]. *)
Definition gt (a b : Q) : bool := negb (Qle_bool a b).

(** [len(l)] and [len(s)]. *)
Definition len {A} (l : list A) : Z := Z.of_nat (List.length l).
Definition slen (s : string) : Z := Z.of_nat (String.length s).

Definition fsum (l : list Q) : Q := fold_left Qplus l 0%Q.

(** [np.mean(l)].  NumPy answers [nan] on an empty list; every call
    in this file is reached with a list that has an element. *)
Definition np_mean (l : list Q) : Q := (fsum l / int_to_float (len l))%Q.

(** [max(l, key=key)]: the first element whose key no later strictly
    larger key displaces; [ValueError] on an empty sequence. *)
Definition max_by {A} (key : A -> Q) (l : list A) : result A :=
  match l with
  | [] => raise (ValueError "max() arg is an empty sequence")
  | a :: l' =>
      ret (fold_left (fun best x => if gt (key x) (key best) then x else best)
                     l' a)
  end.

(** *** Strings *)

Definition chars (s : string) : list ascii := list_ascii_of_string s.
Definition of_chars (l : list ascii) : string := string_of_list_ascii l.

Definition lower_char (c : ascii) : ascii :=
  let n := nat_of_ascii c in
  if ((65 <=? n) && (n <=? 90))%nat then ascii_of_nat (n + 32) else c.

(** [s.lower()]. *)
Definition lower (s : string) : string := of_chars (map lower_char (chars s)).

Definition isspace (c : ascii) : bool :=
  let n := nat_of_ascii c in
  (((9 <=? n) && (n <=? 13)) || ((28 <=? n) && (n <=? 32)))%nat.

Fixpoint lstrip_chars (l : list ascii) : list ascii :=
  match l with
  | [] => []
  | c :: l' => if isspace c then lstrip_chars l' else l
  end.

Definition rstrip_chars (l : list ascii) : list ascii :=
  rev (lstrip_chars (rev l)).

(** [s.strip()]. *)
Definition strip (s : string) : string :=
  of_chars (rstrip_chars (lstrip_chars (chars s))).

(** [s.replace(a, b)] for single characters. *)
Definition replace_char (a b : ascii) (s : string) : string :=
  of_chars (map (fun c => if Ascii.eqb c a then b else c) (chars s)).

(** [s[:n]]. *)
Definition prefix (n : nat) (s : string) : string :=
  of_chars (firstn n (chars s)).

(** [s[i:j]]. *)
Definition substring (i j : nat) (s : string) : string :=
  of_chars (firstn (j - i) (skipn i (chars s))).

(** [str(n)] for an integer. *)
Definition str_int (n : Z) : string :=
  DecimalString.NilZero.string_of_int (Z.to_int n).

(** [s.split(sep)] for a single character: never empty. *)
Fixpoint split_chars (sep : ascii) (l : list ascii) : list (list ascii) :=
  match l with
  | [] => [[]]
  | c :: l' =>
      if Ascii.eqb c sep then [] :: split_chars sep l'
      else match split_chars sep l' with
           | [] => [[c]]
           | seg :: segs => (c :: seg) :: segs
           end
  end.

Definition split (sep : ascii) (s : string) : list string :=
  map of_chars (split_chars sep (chars s)).

(** [sep.join(l)]. *)
Fixpoint join (sep : string) (l : list string) : string :=
  match l with
  | [] => EmptyString
  | [s] => s
  | s :: l' => s ++ sep ++ join sep l'
  end.

(** [l[i]] for [i >= 0]. *)
Definition index {A} (l : list A) (i : nat) : result A :=
  match nth_error l i with
  | Some a => ret a
  | None => raise (IndexError "list index out of range")
  end.

(** [l[i:j]]. *)
Definition slice {A} (i j : nat) (l : list A) : list A :=
  firstn (j - i) (skipn i l).

(** [np.array(l)[idx].tolist()]: the elements of [l] at the indices
    [idx], in the order of [idx]. *)
Fixpoint take {A} (l : list A) (idx : list nat) : result (list A) :=
  match idx with
  | [] => ret []
  | i :: idx' =>
      match nth_error l i with
      | None => raise (IndexError "index out of bounds")
      | Some a => bind (take l idx') (fun r => ret (a :: r))
      end
  end.

(** [any(f(x) for x in l)]. *)
Definition any {A} (f : A -> bool) (l : list A) : bool := existsb f l.

End Py.

Notation "x <- m ;; k" := (Py.bind m (fun x => k))
  (at level 61, m at next level, right associativity).

(** ** The data classes *)

(** [pathlib.Path], kept as the three parts the source reads. *)
Record Path : Type := mkPath {
  parent : string;
  stem : string;
  suffix : string
}.

Definition str_path (p : Path) : string :=
  parent p ++ "/" ++ stem p ++ suffix p.

Record Paper : Type := mkPaper {
  content : string;
  path : Path;
  is_reference : bool;
  label : option string;
  conference : option string
}.

(** ** Answer de-duplication: [_similar_strings] *)

(** [sum(1 for a, b in zip(s1, s2) if a == b)]. *)
Fixpoint common_positions (l1 l2 : list ascii) : nat :=
  match l1, l2 with
  | a :: l1', b :: l2' =>
      (if Ascii.eqb a b then 1 else 0) + common_positions l1' l2'
  | _, _ => 0
  end.

Definition common (str1 str2 : string) : Z :=
  Z.of_nat (common_positions (Py.chars (Py.lower str1))
                             (Py.chars (Py.lower str2))).

(** [common / max(len(str1), len(str2))], the ratio the source compares
    with the threshold (reached only past the length guard). *)
Definition match_ratio (str1 str2 : string) : Q :=
  (Py.int_to_float (common str1 str2)
   / Py.int_to_float (Z.max (Py.slen str1) (Py.slen str2)))%Q.

Definition _similar_strings_with (threshold : Q) (str1 str2 : string) : bool :=
  if ((Py.slen str1 <? 10) || (Py.slen str2 <? 10))%Z then false
  else Py.gt (match_ratio str1 str2) threshold.

(** The default argument [threshold = 0.7]. *)
Definition default_threshold : Q := 7 # 10.

Definition _similar_strings : string -> string -> bool :=
  _similar_strings_with default_threshold.

(** ** The vector store and the question-answering model *)

(** The [metadata] dictionary that [_index_reference_papers] writes for
    every document: the keys ["label"], ["conference"], ["path"]. *)
Module Meta.
Record t : Type := mk {
  label : option string;
  conference : option string;
  path : string
}.
End Meta.

(** One entry of the [documents] list handed to the server. *)
Record Document : Type := mkDocument {
  doc_content : string;
  doc_metadata : Meta.t
}.

(** One query hit: [result.score], [result.metadata]. *)
Record Neighbor : Type := mkNeighbor {
  score : Q;
  metadata : Meta.t
}.

(** What the source calls and does not define.  Each call may raise.
    - [add_documents] is [self.vector_server.add_documents(table)];
    - [query] is [self.vector_client.query(query=..., k=...)], which
      reads the documents the server holds;
    - [qa_answer question context] is the body of the question loop up
      to [convert_tokens_to_string]: tokenizer, model, the two
      [argmax] and the decoding of the span;
    - [shuffle n] is [arange(n)] after the shuffle that
      [KFold(shuffle=True, random_state=42)] applies. *)
Class Externals : Type := {
  Store : Type;
  add_documents : Store -> list Document -> Py.result Store;
  query : Store -> string -> Z -> Py.result (list Neighbor);
  qa_answer : string -> string -> Py.result string;
  shuffle : nat -> list nat
}.

(** ** Result records *)

(** Each dictionary appended to [results] in [classify_papers]. *)
Module Result.
Record t : Type := mk {
  paper_id : string;
  publishable : Z;
  conference : string;
  rationale : string;
  confidence_scores : list (string * Q)
}.
End Result.

(** The dictionary [calculate_metrics] returns. *)
Module Metrics.
Record detail : Type := mkDetail {
  true_positives : Z;
  false_positives : Z;
  true_negatives : Z;
  false_negatives : Z;
  total_papers : Z
}.
Record t : Type := mk {
  accuracy : Q;
  precision : Q;
  recall : Q;
  f1_score : Q;
  conference_accuracy : Q;
  metrics_detail : detail
}.
End Metrics.

(** The dictionary [cross_validate] returns. *)
Module CV.
Record average : Type := mkAverage {
  accuracy : Q;
  f1_score : Q;
  conference_accuracy : Q
}.
Record t : Type := mk {
  fold_metrics : list Metrics.t;
  average_metrics : average
}.
End CV.

(** ** Dictionaries keyed by strings, in insertion order *)

Module Dict.
Definition t (V : Type) : Type := list (string * V).

(** [d[k]]. *)
Fixpoint get {V} (k : string) (d : t V) : Py.result V :=
  match d with
  | [] => Py.raise (Py.KeyError k)
  | (k', v) :: d' => if String.eqb k k' then Py.ret v else get k d'
  end.

(** [d[k].append(x)] on a dictionary of lists. *)
Fixpoint append_at {V} (k : string) (x : V) (d : t (list V))
  : Py.result (t (list V)) :=
  match d with
  | [] => Py.raise (Py.KeyError k)
  | (k', vs) :: d' =>
      if String.eqb k k' then Py.ret ((k', (vs ++ [x])%list) :: d')
      else d'' <- append_at k x d' ;; Py.ret ((k', vs) :: d'')
  end.
End Dict.

(** ** [PaperClassifier] *)

(** [self.conferences]. *)
Definition conferences : list string :=
  ["TMLR"; "CVPR"; "EMNLP"; "NeurIPS"; "KDD"].

Definition nl : string := String (ascii_of_nat 10) EmptyString.

(** The local table of [_generate_rationale]. *)
Definition conference_contexts : Dict.t string :=
  [ ("TMLR", "TMLR is a machine learning research conference focusing on theoretical advances, algorithms, and methodological innovations in machine learning.");
    ("CVPR", "CVPR is a premier computer vision conference focusing on visual processing, recognition, understanding, and generation.");
    ("EMNLP", "EMNLP is a natural language processing conference focusing on computational linguistics, language understanding, and text processing.");
    ("NeurIPS", "NeurIPS is a conference focusing on neural information processing systems, machine learning theory, and artificial intelligence.");
    ("KDD", "KDD is a conference focusing on data mining, knowledge discovery, and large-scale data analytics.") ].

(** [paper_content[:1000].replace('\n', ' ').strip()]. *)
Definition content_preview (paper_content : string) : string :=
  Py.strip (Py.replace_char (ascii_of_nat 10) " "%char
                            (Py.prefix 1000 paper_content)).

(** The [try] that derives [title] and [abstract], with its bare
    [except]. *)
Definition title_and_abstract (content_preview : string) : string * string :=
  Py.try_except
    (title <- Py.index (Py.split "."%char content_preview) 0 ;;
     Py.ret (title,
             Py.join " " (Py.slice 1 3 (Py.split "."%char content_preview))))
    (fun _ => (Py.substring 0 100 content_preview,
               Py.substring 100 500 content_preview)).

Definition title_of (paper_content : string) : string :=
  fst (title_and_abstract (content_preview paper_content)).

Definition abstract_of (paper_content : string) : string :=
  snd (title_and_abstract (content_preview paper_content)).

Definition questions (conference : string) : list string :=
  [ "What specific technical contributions make this paper relevant to "
      ++ conference ++ "?";
    "How does this paper's methodology align with " ++ conference
      ++ "'s main themes?";
    "What is the main innovation of this paper that fits " ++ conference
      ++ "'s focus?" ].

(** [answer and len(answer.strip()) > 10]. *)
Definition answer_kept (answer : string) : bool :=
  negb (String.eqb answer EmptyString) && (Py.slen (Py.strip answer) >? 10)%Z.

(** The test and the [append] that end the body of the question loop. *)
Definition keep_answer (answers : list string) (answer : string) : list string :=
  if answer_kept answer then (answers ++ [Py.strip answer])%list else answers.

(** The de-duplication loop. *)
Definition dedup_step (unique_answers : list string) (ans : string)
  : list string :=
  if negb (Py.any (fun existing => _similar_strings ans existing) unique_answers)
  then (unique_answers ++ [ans])%list
  else unique_answers.

Definition unique_answers_of (answers : list string) : list string :=
  fold_left dedup_step answers [].

(** What [_generate_rationale] returns once [answers] is filled. *)
Definition rationale_of (conference title : string) (answers : list string)
  : string :=
  match answers with
  | _ :: _ =>
      "This paper is relevant to " ++ conference ++ " because "
        ++ Py.join ". " (Py.slice 0 2 (unique_answers_of answers))
  | [] =>
      "This paper appears relevant to " ++ conference
        ++ " based on its focus on " ++ title
  end.

(** The attributes of [self] that the methods below read or write. *)
Module Self.
Record t {E : Externals} : Type := mk {
  reference_papers : list Paper;
  vector_server : Store
}.
End Self.

(** The text handed to the question-answering model with each
    question. *)
Definition rationale_context (title abstract conference_context : string)
  : string :=
  "Paper Title: " ++ title ++ nl
  ++ "Abstract: " ++ abstract ++ nl ++ nl
  ++ "Conference Information: " ++ conference_context ++ nl ++ nl
  ++ "A paper is relevant to a conference if its technical contributions and research focus align with the conference's main themes. "
  ++ "The explanation should describe specific technical aspects of the paper that match the conference's focus areas.".

Section Classifier.

Context {E : Externals}.

Definition PaperClassifier : Type := Self.t.

(** A method: it may raise, and otherwise returns with the instance
    as it left it. *)
Definition method (A : Type) : Type :=
  PaperClassifier -> Py.result (A * PaperClassifier).

Definition document_of (paper : Paper) : Document :=
  {| doc_content := content paper;
     doc_metadata := {| Meta.label := label paper;
                        Meta.conference := conference paper;
                        Meta.path := str_path (path paper) |} |}.

Definition _index_reference_papers (reference_papers : list Paper)
  : method unit :=
  fun self =>
    let documents := map document_of reference_papers in
    server <- add_documents (Self.vector_server self) documents ;;
    Py.ret (tt, {| Self.reference_papers := Self.reference_papers self;
                   Self.vector_server := server |}).

Definition _get_similar_papers (self : PaperClassifier) (query_paper : Paper)
                               (top_k : Z) : Py.result (list Neighbor) :=
  query (Self.vector_server self) (content query_paper) top_k.

Definition _generate_rationale (paper_content conference : string)
  : Py.result string :=
  let title := title_of paper_content in
  let abstract := abstract_of paper_content in
  conference_context <- Dict.get conference conference_contexts ;;
  let context := rationale_context title abstract conference_context in
  answers <- Py.for_each
               (fun answers question =>
                  answer <- qa_answer question context ;;
                  Py.ret (keep_answer answers answer))
               (questions conference) [] ;;
  Py.ret (rationale_of conference title answers).

(** *** [classify_papers] *)

(** [metadata["label"] == "Publishable"] and the like. *)
Definition is_str (v : option string) (s : string) : bool :=
  match v with
  | Some s' => String.eqb s' s
  | None => false
  end.

(** Truth value of an optional string: [None] and the empty string are false. *)
Definition truthy (v : option string) : option string :=
  match v with
  | Some s => if String.eqb s EmptyString then None else Some s
  | None => None
  end.

(** The two accumulators of the loop over [similar_papers]. *)
Definition scores : Type := (list Q * Dict.t (list Q))%type.

(** [{conf: [] for conf in self.conferences}]. *)
Definition empty_conference_scores : Dict.t (list Q) :=
  map (fun conf => (conf, [])) conferences.

(** The body of [for result in similar_papers]. *)
Definition score_step (acc : scores) (result : Neighbor) : Py.result scores :=
  let '(publishable_scores, conference_scores) := acc in
  if is_str (Meta.label (metadata result)) "Publishable" then
    let publishable_scores := (publishable_scores ++ [score result])%list in
    match truthy (Meta.conference (metadata result)) with
    | Some conf =>
        conference_scores <- Dict.append_at conf (score result)
                                            conference_scores ;;
        Py.ret (publishable_scores, conference_scores)
    | None => Py.ret (publishable_scores, conference_scores)
    end
  else Py.ret acc.

(** [np.mean(l) if l else 0]. *)
Definition mean_or_zero (l : list Q) : Q :=
  match l with
  | [] => 0%Q
  | _ :: _ => Py.np_mean l
  end.

Definition publishable_threshold : Q := 7 # 10.

(** The body of the [try] block for one paper, up to the record it
    appends. *)
Definition classify_one (self : PaperClassifier) (paper : Paper)
  : Py.result Result.t :=
  similar_papers <- _get_similar_papers self paper 5 ;;
  acc <- Py.for_each score_step similar_papers
                     ([], empty_conference_scores) ;;
  let '(publishable_scores, conference_scores) := acc in
  let avg_publishable_score := mean_or_zero publishable_scores in
  let is_publishable := Py.gt avg_publishable_score publishable_threshold in
  if is_publishable then
    let conf_avg_scores :=
      map (fun '(conf, scores) => (conf, mean_or_zero scores))
          conference_scores in
    best <- Py.max_by snd conf_avg_scores ;;
    let best_conf := fst best in
    rationale <- _generate_rationale (content paper) best_conf ;;
    best_score <- Dict.get best_conf conf_avg_scores ;;
    Py.ret {| Result.paper_id := stem (path paper);
              Result.publishable := 1;
              Result.conference := best_conf;
              Result.rationale := rationale;
              Result.confidence_scores :=
                [("publishability", avg_publishable_score);
                 ("conference", best_score)] |}
  else
    Py.ret {| Result.paper_id := stem (path paper);
              Result.publishable := 0;
              Result.conference := "na";
              Result.rationale := "na";
              Result.confidence_scores :=
                [("publishability", avg_publishable_score)] |}.

(** The record of the [except Exception as e] handler. *)
Definition error_record (paper : Paper) (e : Py.exn) : Result.t :=
  {| Result.paper_id := stem (path paper);
     Result.publishable := 0;
     Result.conference := "error";
     Result.rationale := Py.str_exn e;
     Result.confidence_scores := [] |}.

(** One turn of [for paper in papers]: [try], [except], [append]. *)
Definition classify_step (self : PaperClassifier) (results : list Result.t)
                         (paper : Paper) : list Result.t :=
  (results ++ [Py.try_except (classify_one self paper) (error_record paper)])%list.

(** The method under its [_track_performance] wrapper; the wrapper
    passes the result through and its timing log is not modelled. *)
Definition classify_papers (reference_papers papers : list Paper)
  : method (list Result.t) :=
  fun self =>
    indexed <- _index_reference_papers reference_papers self ;;
    let self := snd indexed in
    Py.ret (fold_left (classify_step self) papers [], self).

(** *** [calculate_metrics] *)

(** The counters of the loop over [zip(validation_papers, results)]. *)
Record counts : Type := mkCounts {
  true_positives : Z;
  false_positives : Z;
  true_negatives : Z;
  false_negatives : Z;
  conference_correct : Z;
  total_publishable : Z
}.

Definition zero_counts : counts := mkCounts 0 0 0 0 0 0.

(** [paper.conference == result["conference"]]. *)
Definition same_conference (paper : Paper) (result : Result.t) : bool :=
  is_str (conference paper) (Result.conference result).

Definition count_step (c : counts) (pr : Paper * Result.t) : counts :=
  let '(paper, result) := pr in
  let is_actually_publishable := is_str (label paper) "Publishable" in
  let is_predicted_publishable := (Result.publishable result =? 1)%Z in
  let c :=
    if is_predicted_publishable && is_actually_publishable then
      mkCounts (true_positives c + 1) (false_positives c)
               (true_negatives c) (false_negatives c)
               (if same_conference paper result
                then conference_correct c + 1 else conference_correct c)
               (total_publishable c)
    else if is_predicted_publishable && negb is_actually_publishable then
      mkCounts (true_positives c) (false_positives c + 1)
               (true_negatives c) (false_negatives c)
               (conference_correct c) (total_publishable c)
    else if negb is_predicted_publishable && negb is_actually_publishable then
      mkCounts (true_positives c) (false_positives c)
               (true_negatives c + 1) (false_negatives c)
               (conference_correct c) (total_publishable c)
    else
      mkCounts (true_positives c) (false_positives c)
               (true_negatives c) (false_negatives c + 1)
               (conference_correct c) (total_publishable c) in
  if is_actually_publishable then
    mkCounts (true_positives c) (false_positives c)
             (true_negatives c) (false_negatives c)
             (conference_correct c) (total_publishable c + 1)
  else c.

(** [a / b if b > 0 else 0] on integers. *)
Definition guarded_ratio (a b : Z) : Py.result Q :=
  if (b >? 0)%Z then Py.truediv a b else Py.ret 0%Q.

(** The part of [calculate_metrics] after the counting loop. *)
Definition metrics_of (c : counts) (total : Z) : Py.result Metrics.t :=
  accuracy <- Py.truediv (true_positives c + true_negatives c) total ;;
  precision <- guarded_ratio (true_positives c)
                             (true_positives c + false_positives c) ;;
  recall <- guarded_ratio (true_positives c)
                          (true_positives c + false_negatives c) ;;
  f1 <- (if Py.gt (precision + recall) 0
         then Py.fdiv (2 * (precision * recall)) (precision + recall)
         else Py.ret 0)%Q ;;
  conference_accuracy <- guarded_ratio (conference_correct c)
                                       (total_publishable c) ;;
  Py.ret {| Metrics.accuracy := accuracy;
            Metrics.precision := precision;
            Metrics.recall := recall;
            Metrics.f1_score := f1;
            Metrics.conference_accuracy := conference_accuracy;
            Metrics.metrics_detail :=
              {| Metrics.true_positives := true_positives c;
                 Metrics.false_positives := false_positives c;
                 Metrics.true_negatives := true_negatives c;
                 Metrics.false_negatives := false_negatives c;
                 Metrics.total_papers := total |} |}.

Definition calculate_metrics (validation_papers : list Paper)
  : method Metrics.t :=
  fun self =>
    classified <- classify_papers (Self.reference_papers self)
                                  validation_papers self ;;
    let '(results, self) := classified in
    let c := fold_left count_step (combine validation_papers results)
                       zero_counts in
    metrics <- metrics_of c (Py.len validation_papers) ;;
    Py.ret (metrics, self).

(** *** [cross_validate] *)

(** [sklearn.model_selection.KFold(n_splits, shuffle=True,
    random_state=42)], as the library documents and implements it:
    the constructor rejects [n_splits <= 1], [split] rejects more
    splits than samples, the first [n mod k] folds have one sample
    more than [n / k], fold [i] tests the [i]-th run of the shuffled
    indices, and both index arrays come out of a mask over
    [arange(n)], in increasing order. *)
Definition fold_sizes (n_splits n_samples : nat) : list nat :=
  map (fun i => n_samples / n_splits
                + (if i <? n_samples mod n_splits then 1 else 0))%nat
      (seq 0 n_splits).

Fixpoint runs (sizes : list nat) (indices : list nat) : list (list nat) :=
  match sizes with
  | [] => []
  | size :: sizes' => firstn size indices :: runs sizes' (skipn size indices)
  end.

Definition test_mask (test : list nat) (i : nat) : bool :=
  existsb (Nat.eqb i) test.

Definition train_test (n_samples : nat) (test : list nat)
  : list nat * list nat :=
  (filter (fun i => negb (test_mask test i)) (seq 0 n_samples),
   filter (test_mask test) (seq 0 n_samples)).

Definition KFold_split (n_splits : Z) (n_samples : nat)
  : Py.result (list (list nat * list nat)) :=
  if (n_splits <=? 1)%Z then
    Py.raise (Py.ValueError
      ("k-fold cross-validation requires at least one train/test split by setting n_splits=2 or more, got n_splits="
       ++ Py.str_int n_splits ++ "."))
  else if (Z.of_nat n_samples <? n_splits)%Z then
    Py.raise (Py.ValueError
      ("Cannot have number of splits n_splits=" ++ Py.str_int n_splits
       ++ " greater than the number of samples: n_samples="
       ++ Py.str_int (Z.of_nat n_samples) ++ "."))
  else
    Py.ret (map (train_test n_samples)
                (runs (fold_sizes (Z.to_nat n_splits) n_samples)
                      (shuffle n_samples))).

(** The body of [for train_idx, val_idx in kf.split(reference_papers)]. *)
Definition fold_step (reference_papers : list Paper)
                     (acc : list Metrics.t * PaperClassifier)
                     (fold : list nat * list nat)
  : Py.result (list Metrics.t * PaperClassifier) :=
  let '(metrics_list, self) := acc in
  let '(train_idx, val_idx) := fold in
  train_papers <- Py.take reference_papers train_idx ;;
  val_papers <- Py.take reference_papers val_idx ;;
  let self := {| Self.reference_papers := train_papers;
                 Self.vector_server := Self.vector_server self |} in
  measured <- calculate_metrics val_papers self ;;
  let '(metrics, self) := measured in
  Py.ret ((metrics_list ++ [metrics])%list, self).

Definition cross_validate (k_folds : Z) : method CV.t :=
  fun self =>
    let reference_papers := Self.reference_papers self in
    folds <- KFold_split k_folds (List.length reference_papers) ;;
    looped <- Py.for_each (fold_step reference_papers) folds ([], self) ;;
    let '(metrics_list, self) := looped in
    let avg_metrics :=
      {| CV.accuracy := Py.np_mean (map Metrics.accuracy metrics_list);
         CV.f1_score := Py.np_mean (map Metrics.f1_score metrics_list);
         CV.conference_accuracy :=
           Py.np_mean (map Metrics.conference_accuracy metrics_list) |} in
    Py.ret ({| CV.fold_metrics := metrics_list;
               CV.average_metrics := avg_metrics |}, self).

End Classifier.

(** ** The aggregation, in the words of its description *)

(** The neighbours whose metadata label is ["Publishable"]. *)
Definition labelled_publishable (n : Neighbor) : bool :=
  is_str (Meta.label (metadata n)) "Publishable".

(** The similarity scores of the publishable neighbours. *)
Definition publishable_scores_of (neighbors : list Neighbor) : list Q :=
  map score (filter labelled_publishable neighbors).

(** The publishable neighbours tagged with the conference [conf]. *)
Definition tagged (conf : string) (n : Neighbor) : bool :=
  labelled_publishable n && is_str (truthy (Meta.conference (metadata n))) conf.

Definition conference_scores_of (conf : string) (neighbors : list Neighbor)
  : list Q :=
  map score (filter (tagged conf) neighbors).

(** The mean score of a conference among the neighbours, 0 if it has
    none. *)
Definition conference_mean (neighbors : list Neighbor) (conf : string) : Q :=
  mean_or_zero (conference_scores_of conf neighbors).

(** No entry of the list is similar to an earlier one. *)
Definition pairwise_distinct : list string -> Prop :=
  ForallOrdPairs (fun earlier later => _similar_strings later earlier = false).

(** The per-conference means the source computes for a publishable
    paper. *)
Definition conf_avg_scores_of (neighbors : list Neighbor) : Dict.t Q :=
  map (fun conf => (conf, conference_mean neighbors conf)) conferences.

(** ** The metrics computation, unfolded *)

(** [2 * (p * r) / (p + r) if (p + r) > 0 else 0]. *)
Definition f1_of (precision recall : Q) : Q :=
  if Py.gt (precision + recall) 0
  then (2 * (precision * recall) / (precision + recall))%Q
  else 0%Q.

(** The dictionary [calculate_metrics] builds when no division
    raises. *)
Definition metrics_record (c : counts) (total : Z) : Metrics.t :=
  let precision :=
    if (true_positives c + false_positives c >? 0)%Z
    then (inject_Z (true_positives c)
          / inject_Z (true_positives c + false_positives c))%Q
    else 0%Q in
  let recall :=
    if (true_positives c + false_negatives c >? 0)%Z
    then (inject_Z (true_positives c)
          / inject_Z (true_positives c + false_negatives c))%Q
    else 0%Q in
  {| Metrics.accuracy :=
       (inject_Z (true_positives c + true_negatives c) / inject_Z total)%Q;
     Metrics.precision := precision;
     Metrics.recall := recall;
     Metrics.f1_score := f1_of precision recall;
     Metrics.conference_accuracy :=
       if (total_publishable c >? 0)%Z
       then (inject_Z (conference_correct c)
             / inject_Z (total_publishable c))%Q
       else 0%Q;
     Metrics.metrics_detail :=
       {| Metrics.true_positives := true_positives c;
          Metrics.false_positives := false_positives c;
          Metrics.true_negatives := true_negatives c;
          Metrics.false_negatives := false_negatives c;
          Metrics.total_papers := total |} |}.

(** The counters after the loop over [zip(validation_papers, results)]. *)
Definition counts_of (validation_papers : list Paper) (results : list Result.t)
  : counts :=
  fold_left count_step (combine validation_papers results) zero_counts.


(** ** The metrics, in the words of their description *)

Module Confusion.

Definition predicted (r : Result.t) : bool := (Result.publishable r =? 1)%Z.
Definition actual (p : Paper) : bool := is_str (label p) "Publishable".

(** How many (paper, result) pairs satisfy [f]. *)
Definition tally (f : Paper -> Result.t -> bool)
                 (pairs : list (Paper * Result.t)) : Z :=
  Py.len (filter (fun pr => f (fst pr) (snd pr)) pairs).

Definition TP := tally (fun p r => predicted r && actual p).
Definition FP := tally (fun p r => predicted r && negb (actual p)).
Definition TN := tally (fun p r => negb (predicted r) && negb (actual p)).
Definition FN := tally (fun p r => negb (predicted r) && actual p).

(** Conference matches, counted among the true positives. *)
Definition conferenceCorrect :=
  tally (fun p r => predicted r && actual p && same_conference p r).

Definition totalActuallyPublishable := tally (fun p _ => actual p).

(** [a / b], or 0 if the denominator is 0. *)
Definition ratio_or_zero (a b : Z) : Q :=
  if (b =? 0)%Z then 0%Q else (inject_Z a / inject_Z b)%Q.

(** The harmonic mean [2pr / (p + r)], or 0 if both are 0. *)
Definition harmonic_mean_or_zero (p r : Q) : Q :=
  if Qeq_bool p 0 && Qeq_bool r 0 then 0%Q
  else (2 * (p * r) / (p + r))%Q.

End Confusion.

(** ** A concrete environment, for the examples *)

Module Demo.

Definition hit (s : Q) (lbl : string) (conf : option string) : Neighbor :=
  {| score := s;
     metadata := {| Meta.label := Some lbl;
                    Meta.conference := conf;
                    Meta.path := "Reference/ref.pdf" |} |}.

Definition near_hits : list Neighbor :=
  [ hit (9 # 10) "Publishable" (Some "CVPR");
    hit (8 # 10) "Publishable" (Some "CVPR");
    hit (85 # 100) "Publishable" (Some "EMNLP");
    hit (2 # 10) "NonPublishable" None ].

Definition far_hits : list Neighbor :=
  [ hit (3 # 10) "Publishable" (Some "KDD");
    hit (1 # 10) "NonPublishable" None ].

(** Two spans of 20 characters that agree on the first 14. *)
Definition span_a : string := "aaaaaaaaaaaaaaaaaaaa".
Definition span_b : string := "aaaaaaaaaaaaaabbbbbb".

(** Two spans of 20 characters that agree on the first 15. *)
Definition span_c : string := "Aaaaaaaaaaaaaaabbbbb".

(** A span of exactly 10 characters once trimmed. *)
Definition span_ten : string := " 0123456789 ".

(** A store that keeps what it is given; a query that fails for the
    content ["offline"], finds only distant documents for ["far"]
    and close ones otherwise; a model that answers [second] to the
    question starting with ["How"] and [first] to the other two. *)
Definition env (first second : string) : Externals :=
  {| Store := list Document;
     add_documents := fun s docs => Py.ret (s ++ docs)%list;
     query := fun _ q _ =>
       if String.eqb q "offline"
       then Py.raise (Py.RuntimeError "connection refused")
       else if String.eqb q "far" then Py.ret far_hits
       else Py.ret near_hits;
     qa_answer := fun question _ =>
       if String.prefix "How" question then Py.ret second
       else Py.ret first;
     shuffle := fun n => rev (seq 0 n) |}.

Definition paper (name text : string) (lbl conf : option string) : Paper :=
  {| content := text;
     path := {| parent := "Dataset"; stem := name; suffix := ".pdf" |};
     is_reference := false;
     label := lbl;
     conference := conf |}.

Definition papers : list Paper :=
  [ paper "P001" "Vision transformers. We study them. They work." None None;
    paper "P002" "offline" None None;
    paper "P003" "far" None None ].

Definition references : list Paper :=
  [ paper "R001" "A" (Some "Publishable") (Some "CVPR");
    paper "R002" "B" (Some "Publishable") (Some "EMNLP");
    paper "R003" "far" (Some "NonPublishable") None;
    paper "R004" "D" (Some "Publishable") (Some "KDD");
    paper "R005" "far" (Some "NonPublishable") None ].

Definition self (first second : string) (refs : list Paper)
  : @Self.t (env first second) :=
  @Self.mk (env first second) refs [].

End Demo.

(** * More of the source: definitions *)

(** [l1] is [l2] with some entries left out, order kept. *)
Inductive subsequence {A : Type} : list A -> list A -> Prop :=
| subsequence_nil : subsequence [] []
| subsequence_keep : forall a l1 l2,
    subsequence l1 l2 -> subsequence (a :: l1) (a :: l2)
| subsequence_drop : forall a l1 l2,
    subsequence l1 l2 -> subsequence l1 (a :: l2).

(** A list of characters without white space at its head. *)
Definition clean_head (l : list ascii) : Prop :=
  match l with
  | [] => True
  | c :: _ => Py.isspace c = false
  end.

(** ** Conference tags the scoring loop cannot file *)

(** The tag of a neighbour labelled ["Publishable"] when it is not
    one of [self.conferences]. *)
Definition unknown_tag (n : Neighbor) : option string :=
  if labelled_publishable n then
    match truthy (Meta.conference (metadata n)) with
    | Some conf =>
        if existsb (String.eqb conf) conferences then None else Some conf
    | None => None
    end
  else None.

(** The first such tag among the neighbours. *)
Fixpoint first_unknown_tag (neighbors : list Neighbor) : option string :=
  match neighbors with
  | [] => None
  | n :: rest =>
      match unknown_tag n with
      | Some conf => Some conf
      | None => first_unknown_tag rest
      end
  end.

(** ** The fold loop of [cross_validate] *)

(** What one turn of the fold loop has done when it returns. *)
Definition fold_done {E : Externals} (refs : list Paper)
           (fold : list nat * list nat) (metrics : Metrics.t)
           (after : PaperClassifier) : Prop :=
  exists train_papers val_papers before,
    Py.take refs (fst fold) = inr train_papers
    /\ Py.take refs (snd fold) = inr val_papers
    /\ Self.reference_papers before = train_papers
    /\ calculate_metrics val_papers before = inr (metrics, after)
    /\ Self.reference_papers after = train_papers.


(** ** Loading the data set *)

(** The file system and the PDF reader, which the source calls:
    [glob_pdf dir] is [dir.glob("*.pdf")], in the order the directory
    yields them (none for a directory that is not there), and
    [fitz_pages path] is [fitz.open(path)] followed by
    [page.get_text()] on every page; either may raise. *)
Class FileSystem : Type := {
  glob_pdf : string -> list Path;
  fitz_pages : Path -> Py.result (list string)
}.

(** [dir / name]. *)
Definition join_path (dir name : string) : string := dir ++ "/" ++ name.

Section Loading.

Context {E : Externals} {F : FileSystem}.

(** [text = ""; for page in doc: text += page.get_text()], then
    [text.strip()]; the empty string when anything raises. *)
Definition _extract_pdf_content (pdf_path : Path) : string :=
  Py.try_except
    (pages <- fitz_pages pdf_path ;;
     Py.ret (Py.strip (fold_left String.append pages EmptyString)))
    (fun _ => EmptyString).

(** The body of each of the three loops over [glob("*.pdf")]. *)
Definition load_step (is_ref : bool) (lbl conf : option string)
           (papers : list Paper) (pdf_path : Path) : list Paper :=
  (papers ++ [ {| content := _extract_pdf_content pdf_path;
                  path := pdf_path;
                  is_reference := is_ref;
                  label := lbl;
                  conference := conf |} ])%list.

Definition load_dataset (base_path : string) (self : PaperClassifier)
  : (list Paper * list Paper) * PaperClassifier :=
  let ref_path := join_path base_path "Reference" in
  let pub_path := join_path ref_path "Publishable" in
  let reference_papers :=
    fold_left
      (fun reference_papers conf =>
         let conf_path := join_path pub_path conf in
         fold_left (load_step true (Some "Publishable") (Some conf))
                   (glob_pdf conf_path) reference_papers)
      conferences [] in
  let nonpub_path := join_path ref_path "Non-Publishable" in
  let reference_papers :=
    fold_left (load_step true (Some "NonPublishable") None)
              (glob_pdf nonpub_path) reference_papers in
  let papers_path := join_path base_path "Papers" in
  let papers_to_classify :=
    fold_left (load_step false None None) (glob_pdf papers_path) [] in
  ((reference_papers, papers_to_classify),
   {| Self.reference_papers := reference_papers;
      Self.vector_server := Self.vector_server self |}).

End Loading.

(** A reference paper as [load_dataset] builds them. *)
Definition reference_shaped (paper : Paper) : Prop :=
  is_reference paper = true
  /\ ((label paper = Some "Publishable"
       /\ exists conf, conference paper = Some conf /\ In conf conferences)
      \/ (label paper = Some "NonPublishable" /\ conference paper = None)).

(** A paper to classify as [load_dataset] builds them. *)
Definition candidate_shaped (paper : Paper) : Prop :=
  is_reference paper = false /\ label paper = None /\ conference paper = None.

(** A file system for the examples: one PDF per conference, one
    non-publishable PDF that cannot be read, two papers to classify. *)
Module DemoFiles.

Definition pdf (dir name : string) : Path :=
  {| parent := dir; stem := name; suffix := ".pdf" |}.

Definition files : FileSystem :=
  {| glob_pdf := fun dir =>
       if String.eqb dir "data/Reference/Publishable/CVPR"
       then [pdf dir "R006"; pdf dir "R007"]
       else if String.eqb dir "data/Reference/Non-Publishable"
       then [pdf dir "R001"]
       else if String.eqb dir "data/Papers"
       then [pdf dir "P001"; pdf dir "P002"]
       else [];
     fitz_pages := fun p =>
       if String.eqb (stem p) "R001"
       then Py.raise (Py.RuntimeError "cannot open broken document")
       else Py.ret ["  Vision transformers. "; "We study them.  "] |}.

End DemoFiles.

(** * Properties *)

(** ** The model on concrete inputs *)

Example split_on_periods :
  Py.split "."%char "a.b. c." = ["a"; "b"; " c"; EmptyString].
Proof. reflexivity. Qed.

Example strip_both_ends : Py.strip "  ab c " = "ab c".
Proof. reflexivity. Qed.

Example lower_letters_only : Py.lower "TMLR-2025 x" = "tmlr-2025 x".
Proof. reflexivity. Qed.

Example title_and_abstract_of_a_preview :
  title_and_abstract "Vision transformers. We study them. They work. More"
  = ("Vision transformers", " We study them  They work").
Proof. reflexivity. Qed.

Example seven_matches_out_of_ten :
  (match_ratio "Abcdefghij" "abcdefgxyz" == 7 # 10)%Q
  /\ _similar_strings "Abcdefghij" "abcdefgxyz" = false.
Proof. split; reflexivity. Qed.

Example three_papers_three_records :
  match classify_papers Demo.references Demo.papers
                        (Demo.self Demo.span_a Demo.span_b []) with
  | inr (results, _) =>
      map (fun r => (Result.paper_id r, Result.publishable r,
                     Result.conference r)) results
      = [("P001", 1%Z, "CVPR"); ("P002", 0%Z, "error"); ("P003", 0%Z, "na")]
  | inl _ => False
  end.
Proof. vm_compute. reflexivity. Qed.

Example two_folds_of_five :
  KFold_split (E := Demo.env Demo.span_a Demo.span_b) 2 5
  = inr [([0; 1], [2; 3; 4]); ([2; 3; 4], [0; 1])]%nat.
Proof. reflexivity. Qed.

Example more_folds_than_samples :
  KFold_split (E := Demo.env Demo.span_a Demo.span_b) 6 5
  = inl (Py.ValueError "Cannot have number of splits n_splits=6 greater than the number of samples: n_samples=5.").
Proof. reflexivity. Qed.

(** ** Comparisons and means *)

Lemma gt_spec (a b : Q) : Py.gt a b = true <-> (b < a)%Q.
Proof.
  unfold Py.gt. rewrite negb_true_iff.
  split; intro H.
  - apply Qnot_le_lt. intro Hle.
    apply Qle_bool_iff in Hle. congruence.
  - destruct (Qle_bool a b) eqn:Hle; [ | reflexivity ].
    apply Qle_bool_iff in Hle. exfalso. revert Hle. now apply Qlt_not_le.
Qed.

Lemma gt_false_spec (a b : Q) : Py.gt a b = false <-> (a <= b)%Q.
Proof.
  unfold Py.gt. rewrite negb_false_iff. apply Qle_bool_iff.
Qed.

(** ** Strings *)

Lemma common_positions_sym (l1 l2 : list ascii) :
  common_positions l1 l2 = common_positions l2 l1.
Proof.
  revert l2. induction l1 as [ | a l1 IH ]; intros [ | b l2 ]; simpl; trivial.
  rewrite IH, Ascii.eqb_sym. reflexivity.
Qed.

Lemma common_sym (a b : string) : common a b = common b a.
Proof. unfold common. now rewrite common_positions_sym. Qed.

Lemma match_ratio_sym (a b : string) : match_ratio a b = match_ratio b a.
Proof. unfold match_ratio. now rewrite common_sym, Z.max_comm. Qed.

Lemma similar_with_sym (threshold : Q) (a b : string) :
  _similar_strings_with threshold a b = _similar_strings_with threshold b a.
Proof.
  unfold _similar_strings_with.
  now rewrite match_ratio_sym, orb_comm.
Qed.

Lemma similar_sym (a b : string) : _similar_strings a b = _similar_strings b a.
Proof. apply similar_with_sym. Qed.

Lemma similar_spec (a b : string) :
  _similar_strings a b = true
  <-> (10 <= Py.slen a)%Z /\ (10 <= Py.slen b)%Z
      /\ (default_threshold < match_ratio a b)%Q.
Proof.
  unfold _similar_strings, _similar_strings_with.
  destruct (Py.slen a <? 10)%Z eqn:Ha; simpl.
  - apply Z.ltb_lt in Ha. split; [ discriminate | lia ].
  - apply Z.ltb_ge in Ha.
    destruct (Py.slen b <? 10)%Z eqn:Hb.
    + apply Z.ltb_lt in Hb. split; [ discriminate | lia ].
    + apply Z.ltb_ge in Hb. rewrite gt_spec. tauto.
Qed.

(** ** The de-duplication loop *)

Lemma ForallOrdPairs_snoc {A} (R : A -> A -> Prop) (l : list A) (a : A) :
  ForallOrdPairs R l -> Forall (fun x => R x a) l ->
  ForallOrdPairs R (l ++ [a]).
Proof.
  induction 1 as [ | x l Hx Hl IH ]; intro Ha; simpl.
  - constructor; constructor.
  - inversion Ha; subst. constructor.
    + apply Forall_app. split; [ assumption | now constructor ].
    + now apply IH.
Qed.

Lemma dedup_step_distinct (u : list string) (ans : string) :
  pairwise_distinct u -> pairwise_distinct (dedup_step u ans).
Proof.
  intro Hu. unfold dedup_step.
  destruct (Py.any _ u) eqn:Hany; simpl; [ assumption | ].
  apply ForallOrdPairs_snoc; [ assumption | ].
  apply Forall_forall. intros x Hx.
  destruct (_similar_strings ans x) eqn:Hs; [ | reflexivity ].
  assert (Py.any (fun existing => _similar_strings ans existing) u = true)
    as Habs by (apply existsb_exists; eauto).
  congruence.
Qed.

Lemma dedup_loop_distinct (answers u : list string) :
  pairwise_distinct u -> pairwise_distinct (fold_left dedup_step answers u).
Proof.
  revert u. induction answers as [ | ans answers IH ]; intros u Hu; simpl.
  - assumption.
  - apply IH. now apply dedup_step_distinct.
Qed.

Lemma unique_answers_distinct (answers : list string) :
  pairwise_distinct (unique_answers_of answers).
Proof. apply dedup_loop_distinct. constructor. Qed.

(** The loop only ever extends the list it has. *)
Lemma dedup_loop_extends (answers u : list string) :
  exists more, fold_left dedup_step answers u = (u ++ more)%list.
Proof.
  revert u. induction answers as [ | ans answers IH ]; intro u; simpl.
  - exists []. now rewrite app_nil_r.
  - destruct (IH (dedup_step u ans)) as [more Hmore]. rewrite Hmore.
    unfold dedup_step. destruct (negb _).
    + exists (ans :: more). now rewrite <- app_assoc.
    + now exists more.
Qed.

(** The first answer always survives. *)
Lemma unique_answers_head (ans : string) (answers : list string) :
  exists more, unique_answers_of (ans :: answers) = ans :: more.
Proof.
  unfold unique_answers_of. simpl.
  destruct (dedup_loop_extends answers (dedup_step [] ans)) as [more Hmore].
  rewrite Hmore. unfold dedup_step. simpl. now exists more.
Qed.

(** C9: the answer-similarity predicate is symmetric in its two
    strings, for any fixed threshold and so for the default one: the
    count of matching positions over the zipped prefix and the longer
    of the two lengths do not depend on the order of the arguments. *)
Theorem similar_strings_symmetric :
  forall (threshold : Q) (a b : string),
    _similar_strings_with threshold a b = _similar_strings_with threshold b a
    /\ _similar_strings a b = _similar_strings b a
    /\ common a b = common b a
    /\ Z.max (Py.slen a) (Py.slen b) = Z.max (Py.slen b) (Py.slen a).
Proof.
  intros threshold a b. repeat split.
  - apply similar_with_sym.
  - apply similar_with_sym.
  - apply common_sym.
  - apply Z.max_comm.
Qed.

(** C6, as the source has it: two spans are similar exactly when both
    have at least 10 characters and their positional match ratio is
    strictly greater than 0.7 (so a span shorter than 10 characters is
    similar to nothing); two similar spans collapse to one: of the pair
    only the first is kept and reaches the rationale, and whatever the
    answers are, the de-duplicated list never holds both. *)
Theorem similar_spans_collapse :
  forall a b : string,
    (_similar_strings a b = true
     <-> (10 <= Py.slen a)%Z /\ (10 <= Py.slen b)%Z
         /\ (7 # 10 < match_ratio a b)%Q)
    /\ (_similar_strings a b = true ->
        unique_answers_of [a; b] = [a]
        /\ (forall conference title,
              rationale_of conference title [a; b]
              = "This paper is relevant to " ++ conference ++ " because " ++ a)
        /\ (forall answers,
              In a (unique_answers_of answers) ->
              In b (unique_answers_of answers) -> a = b)).
Proof.
  intros a b. split; [ apply similar_spec | ].
  intro Hsim.
  assert (unique_answers_of [a; b] = [a]) as Hpair.
  { unfold unique_answers_of, dedup_step. simpl.
    rewrite (similar_sym b a), Hsim. reflexivity. }
  split; [ exact Hpair | split ].
  - intros conference title. unfold rationale_of. now rewrite Hpair.
  - intros answers Ha Hb.
    destruct (ForallOrdPairs_In (unique_answers_distinct answers) _ _ Ha Hb)
      as [ Heq | [ Hab | Hba ] ]; [ assumption | | ]; simpl in *.
    + rewrite similar_sym in Hab. congruence.
    + congruence.
Qed.

Lemma similar_spans_collapse_witness :
  _similar_strings Demo.span_a Demo.span_c = true
  /\ unique_answers_of [Demo.span_a; Demo.span_c] = [Demo.span_a]
  /\ rationale_of "KDD" "T" [Demo.span_a; Demo.span_c]
     = "This paper is relevant to KDD because aaaaaaaaaaaaaaaaaaaa".
Proof.
  assert (_similar_strings Demo.span_a Demo.span_c = true) as H
    by (vm_compute; reflexivity).
  split; [ exact H | ].
  destruct (proj2 (similar_spans_collapse Demo.span_a Demo.span_c) H)
    as [Hpair [Hrat _]].
  split; [ exact Hpair | exact (Hrat "KDD" "T") ].
Defined.

(** C6 as stated fails at a ratio of exactly 0.7: two spans of 20
    characters that agree on 14 positions are not similar, and both
    reach the rationale. *)
Lemma ratio_of_exactly_seven_tenths_is_kept :
  (10 <= Py.slen Demo.span_a)%Z /\ (10 <= Py.slen Demo.span_b)%Z
  /\ (7 # 10 <= match_ratio Demo.span_a Demo.span_b)%Q
  /\ _similar_strings Demo.span_a Demo.span_b = false
  /\ unique_answers_of [Demo.span_a; Demo.span_b] = [Demo.span_a; Demo.span_b]
  /\ @_generate_rationale (Demo.env Demo.span_a Demo.span_b) "Title. Text" "KDD"
     = inr "This paper is relevant to KDD because aaaaaaaaaaaaaaaaaaaa. aaaaaaaaaaaaaabbbbbb".
Proof.
  repeat split; vm_compute; congruence.
Qed.

(** ** Rationale generation *)

Lemma split_chars_inhabited (sep : ascii) (l : list ascii) :
  exists seg segs, Py.split_chars sep l = seg :: segs.
Proof.
  induction l as [ | c l [seg [segs IH]] ]; simpl.
  - now exists [], [].
  - destruct (Ascii.eqb c sep).
    + now exists [], (Py.split_chars sep l).
    + rewrite IH. now exists (c :: seg), segs.
Qed.

(** The title is the text before the first period of the preview and
    the abstract joins the next two fragments; the [except] branch of
    the source is never taken. *)
Lemma title_is_first_segment (paper_content : string) :
  exists rest,
    Py.split "."%char (content_preview paper_content)
    = title_of paper_content :: rest
    /\ abstract_of paper_content = Py.join " " (firstn 2 rest).
Proof.
  unfold title_of, abstract_of, title_and_abstract, Py.split.
  destruct (split_chars_inhabited "."%char
              (Py.chars (content_preview paper_content))) as [seg [segs ->]].
  simpl. eexists. split; reflexivity.
Qed.

Lemma answer_kept_spec (answer : string) :
  answer_kept answer = true <-> (10 < Py.slen (Py.strip answer))%Z.
Proof.
  unfold answer_kept.
  destruct (String.eqb answer EmptyString) eqn:Hempty; simpl.
  - apply String.eqb_eq in Hempty. subst answer. simpl.
    split; [ discriminate | ]. vm_compute. discriminate.
  - rewrite Z.gtb_ltb. apply Z.ltb_lt.
Qed.

Lemma keep_answers_filter (r1 r2 r3 : string) :
  keep_answer (keep_answer (keep_answer [] r1) r2) r3
  = map Py.strip (filter answer_kept [r1; r2; r3]).
Proof.
  unfold keep_answer. simpl.
  destruct (answer_kept r1), (answer_kept r2), (answer_kept r3); reflexivity.
Qed.

(** C7, as the source has it: an extracted answer is kept exactly when
    its trimmed length is greater than 10; when an answer is kept, the
    rationale is ["This paper is relevant to {conference} because "]
    followed by the first two (or the only one) of the de-duplicated
    answers joined by [". "]; when none is kept, it is the sentence
    built on the title. *)
Theorem rationale_from_answers :
  forall (E : Externals)
         (paper_content conference conference_context r1 r2 r3 : string),
    Dict.get conference conference_contexts = inr conference_context ->
    map (fun question =>
           qa_answer question
             (rationale_context (title_of paper_content)
                                (abstract_of paper_content)
                                conference_context))
        (questions conference)
    = [inr r1; inr r2; inr r3] ->
    let answers := map Py.strip (filter answer_kept [r1; r2; r3]) in
    let kept := Py.slice 0 2 (unique_answers_of answers) in
    (forall answer,
        answer_kept answer = true <-> (10 < Py.slen (Py.strip answer))%Z)
    /\ (forall answer,
          In answer answers
          <-> exists r, In r [r1; r2; r3] /\ answer = Py.strip r
                        /\ (10 < Py.slen (Py.strip r))%Z)
    /\ (answers <> [] ->
        (List.length kept = 1%nat \/ List.length kept = 2%nat)
        /\ _generate_rationale paper_content conference
           = inr ("This paper is relevant to " ++ conference ++ " because "
                  ++ Py.join ". " kept))
    /\ (answers = [] ->
        _generate_rationale paper_content conference
        = inr ("This paper appears relevant to " ++ conference
               ++ " based on its focus on " ++ title_of paper_content)).
Proof.
  intros E paper_content conference conference_context r1 r2 r3 Hctx Hqa
         answers kept.
  assert (_generate_rationale paper_content conference
          = inr (rationale_of conference (title_of paper_content) answers))
    as Hrun.
  { unfold _generate_rationale. rewrite Hctx. simpl Py.bind.
    unfold questions in *. simpl in Hqa.
    injection Hqa as H1 H2 H3.
    simpl. rewrite H1. simpl. rewrite H2. simpl. rewrite H3. simpl.
    rewrite keep_answers_filter. reflexivity. }
  split; [ exact answer_kept_spec | split; [ | split ] ].
  - intro answer. unfold answers. rewrite in_map_iff. split.
    + intros [r [Hr Hin]]. apply filter_In in Hin. destruct Hin as [Hin Hk].
      exists r. repeat split; auto. now apply answer_kept_spec.
    + intros [r [Hin [Heq Hlen]]]. exists r. split; [ now symmetry | ].
      apply filter_In. split; [ assumption | now apply answer_kept_spec ].
  - intro Hne. rewrite Hrun.
    destruct answers as [ | ans rest ] eqn:Hans; [ congruence | ].
    destruct (unique_answers_head ans rest) as [more Hmore].
    split.
    + unfold kept. rewrite Hmore. destruct more; simpl; auto.
    + reflexivity.
  - intro Hnil. rewrite Hrun, Hnil. reflexivity.
Qed.

Lemma rationale_from_answers_witness :
  @_generate_rationale (Demo.env Demo.span_a Demo.span_b) "Title. Text" "KDD"
  = inr ("This paper is relevant to " ++ "KDD" ++ " because "
         ++ Py.join ". " [Demo.span_a; Demo.span_b]).
Proof.
  refine (proj2 (proj1 (proj2 (proj2
    (@rationale_from_answers (Demo.env Demo.span_a Demo.span_b)
       "Title. Text" "KDD" _ Demo.span_a Demo.span_b Demo.span_a
       eq_refl eq_refl))) _)).
  vm_compute. discriminate.
Defined.

(** C7 as stated fails at a trimmed length of exactly 10: the answer
    is not shorter than 10 characters and is discarded all the same,
    and the rationale falls back on the title. *)
Lemma answer_of_ten_characters_is_discarded :
  Py.slen (Py.strip Demo.span_ten) = 10%Z
  /\ answer_kept Demo.span_ten = false
  /\ keep_answer [] Demo.span_ten = []
  /\ @_generate_rationale (Demo.env Demo.span_ten Demo.span_ten)
       "Title. Text" "KDD"
     = inr "This paper appears relevant to KDD based on its focus on Title".
Proof.
  repeat split; vm_compute; reflexivity.
Qed.

(** ** The scoring loop *)

Lemma append_at_spec {V} (k : string) (x : V) (d d' : Dict.t (list V)) :
  NoDup (map fst d) ->
  Dict.append_at k x d = inr d' ->
  d' = map (fun kv => (fst kv,
                       (snd kv ++ if String.eqb k (fst kv) then [x] else [])%list))
           d.
Proof.
  revert d'. induction d as [ | [k' vs] d IH ]; intros d' Hnd Hrun; simpl in *.
  - discriminate.
  - inversion Hnd as [ | ? ? Hnotin Hnd' ]; subst.
    destruct (String.eqb k k') eqn:Hk.
    + apply String.eqb_eq in Hk. subst k'.
      injection Hrun as <-. f_equal.
      rewrite <- (map_id d) at 1. apply map_ext_in.
      intros [k2 vs2] Hin. simpl.
      destruct (String.eqb k k2) eqn:Hk2.
      * apply String.eqb_eq in Hk2. subst k2. exfalso. apply Hnotin.
        change k with (fst (k, vs2)). now apply in_map.
      * now rewrite app_nil_r.
    + destruct (Dict.append_at k x d) as [ e | d'' ] eqn:Hrest; simpl in Hrun.
      * discriminate.
      * injection Hrun as <-. rewrite app_nil_r. f_equal. now apply IH.
Qed.

Lemma score_loop_spec (neighbors : list Neighbor) :
  forall (ps : list Q) (cs : Dict.t (list Q)) (ps' : list Q)
         (cs' : Dict.t (list Q)),
    NoDup (map fst cs) ->
    Py.for_each score_step neighbors (ps, cs) = inr (ps', cs') ->
    ps' = (ps ++ publishable_scores_of neighbors)%list
    /\ cs' = map (fun kv => (fst kv,
                             (snd kv ++ conference_scores_of (fst kv) neighbors)%list))
                 cs.
Proof.
  induction neighbors as [ | n neighbors IH ]; intros ps cs ps' cs' Hnd Hrun.
  - simpl in Hrun. injection Hrun as <- <-. split.
    + now rewrite app_nil_r.
    + rewrite <- (map_id cs) at 1. apply map_ext.
      intros [k vs]. simpl. now rewrite app_nil_r.
  - simpl in Hrun. unfold publishable_scores_of, conference_scores_of, tagged.
    simpl filter. fold (labelled_publishable n) in Hrun.
    destruct (labelled_publishable n) eqn:Hlab; simpl in Hrun |- *.
    + destruct (truthy (Meta.conference (metadata n))) as [ conf | ] eqn:Hconf.
      * destruct (Dict.append_at conf (score n) cs) as [ e | cs1 ] eqn:Happ;
          simpl in Hrun; [ discriminate | ].
        pose proof (@append_at_spec _ _ _ _ _ Hnd Happ) as Hcs1.
        assert (NoDup (map fst cs1)) as Hnd1.
        { rewrite Hcs1, map_map. simpl. exact Hnd. }
        destruct (IH _ _ _ _ Hnd1 Hrun) as [Hps Hcs]. split.
        -- rewrite Hps, <- app_assoc. reflexivity.
        -- rewrite Hcs, Hcs1, map_map. apply map_ext.
           intros [k vs]. simpl. rewrite <- app_assoc.
           destruct (String.eqb conf k); reflexivity.
      * destruct (IH _ _ _ _ Hnd Hrun) as [Hps Hcs]. split.
        -- rewrite Hps, <- app_assoc. reflexivity.
        -- rewrite Hcs. reflexivity.
    + destruct (IH _ _ _ _ Hnd Hrun) as [Hps Hcs]. split.
      * exact Hps.
      * rewrite Hcs. reflexivity.
Qed.

Lemma conferences_NoDup : NoDup conferences.
Proof.
  unfold conferences.
  repeat (constructor; [ simpl; intuition discriminate | ]). constructor.
Qed.

Lemma score_loop_from_empty (neighbors : list Neighbor) (ps : list Q)
                            (cs : Dict.t (list Q)) :
  Py.for_each score_step neighbors ([], empty_conference_scores) = inr (ps, cs) ->
  ps = publishable_scores_of neighbors
  /\ map (fun '(conf, scores) => (conf, mean_or_zero scores)) cs
     = conf_avg_scores_of neighbors.
Proof.
  intro Hrun. apply score_loop_spec in Hrun.
  - destruct Hrun as [-> ->]. split; [ reflexivity | ].
    unfold empty_conference_scores, conf_avg_scores_of. rewrite !map_map.
    reflexivity.
  - exact conferences_NoDup.
Qed.

(** ** [max] with a key *)

Lemma max_loop_spec {A} (key : A -> Q) (l : list A) :
  forall (before : list A) (best : A) (between : list A),
    (forall y, In y before -> (key y < key best)%Q) ->
    (forall y, In y between -> (key y <= key best)%Q) ->
    exists before' after',
      (before ++ best :: between ++ l)%list
      = (before' ++ fold_left (fun b x => if Py.gt (key x) (key b) then x else b)
                              l best :: after')%list
      /\ (forall y, In y before' ->
            (key y < key (fold_left (fun b x => if Py.gt (key x) (key b)
                                                then x else b) l best))%Q)
      /\ (forall y, In y after' ->
            (key y <= key (fold_left (fun b x => if Py.gt (key x) (key b)
                                                 then x else b) l best))%Q).
Proof.
  induction l as [ | x l IH ]; intros before best between Hlt Hle; simpl.
  - exists before, between. rewrite app_nil_r. auto.
  - destruct (Py.gt (key x) (key best)) eqn:Hgt.
    + apply gt_spec in Hgt.
      destruct (IH (before ++ best :: between)%list x []) as [b' [a' [Heq H]]].
      * intros y Hy. apply in_app_or in Hy. destruct Hy as [Hy | [<- | Hy]].
        -- apply Qlt_trans with (key best); auto.
        -- assumption.
        -- apply Qle_lt_trans with (key best); auto.
      * intros y [].
      * exists b', a'. split; [ | exact H ].
        rewrite <- Heq. rewrite <- !app_assoc. reflexivity.
    + apply gt_false_spec in Hgt.
      destruct (IH before best (between ++ [x])%list) as [b' [a' [Heq H]]].
      * assumption.
      * intros y Hy. apply in_app_or in Hy. destruct Hy as [Hy | [<- | []]]; auto.
      * exists b', a'. split; [ | exact H ].
        rewrite <- Heq. rewrite <- !app_assoc. reflexivity.
Qed.

Lemma max_by_spec {A} (key : A -> Q) (l : list A) (best : A) :
  Py.max_by key l = inr best ->
  exists before after,
    l = (before ++ best :: after)%list
    /\ (forall y, In y before -> (key y < key best)%Q)
    /\ (forall y, In y after -> (key y <= key best)%Q).
Proof.
  destruct l as [ | a l ]; simpl; [ discriminate | ].
  intro H. injection H as <-.
  destruct (max_loop_spec key l [] a []) as [b [a' [Heq H]]].
  - intros y [].
  - intros y [].
  - exists b, a'. split; [ exact Heq | exact H ].
Qed.

Lemma max_by_total {A} (key : A -> Q) (a : A) (l : list A) :
  exists best, Py.max_by key (a :: l) = inr best.
Proof. simpl. eauto. Qed.

(** ** One paper *)

Lemma generate_rationale_inv {E : Externals} (paper_content conf r : string) :
  _generate_rationale paper_content conf = inr r ->
  exists answers, r = rationale_of conf (title_of paper_content) answers.
Proof.
  unfold _generate_rationale.
  destruct (Dict.get conf conference_contexts) as [ e | ctx ];
    cbv beta iota delta [Py.bind]; [ discriminate | ].
  match goal with
  | |- context [Py.for_each ?body ?l ?s] =>
      destruct (Py.for_each body l s) as [ e | answers ]; simpl;
      [ discriminate | ]
  end.
  intro H. injection H as <-. now exists answers.
Qed.

Lemma rationale_of_not_na (conf title : string) (answers : list string) :
  rationale_of conf title answers <> "na".
Proof. destruct answers; simpl; discriminate. Qed.

(** The two records the [try] block can append. *)
Lemma classify_one_inv {E : Externals} (self : PaperClassifier) (paper : Paper)
                       (r : Result.t) :
  classify_one self paper = inr r ->
  exists neighbors,
    _get_similar_papers self paper 5 = inr neighbors
    /\ let avg := mean_or_zero (publishable_scores_of neighbors) in
       (Py.gt avg publishable_threshold = false
        /\ r = {| Result.paper_id := stem (path paper);
                  Result.publishable := 0;
                  Result.conference := "na";
                  Result.rationale := "na";
                  Result.confidence_scores := [("publishability", avg)] |})
       \/ (Py.gt avg publishable_threshold = true
           /\ exists best rationale best_score,
               Py.max_by snd (conf_avg_scores_of neighbors) = inr best
               /\ _generate_rationale (content paper) (fst best) = inr rationale
               /\ r = {| Result.paper_id := stem (path paper);
                         Result.publishable := 1;
                         Result.conference := fst best;
                         Result.rationale := rationale;
                         Result.confidence_scores :=
                           [("publishability", avg);
                            ("conference", best_score)] |}).
Proof.
  unfold classify_one.
  destruct (_get_similar_papers self paper 5) as [ e | neighbors ]; simpl;
    [ discriminate | ].
  destruct (Py.for_each score_step neighbors ([], empty_conference_scores))
    as [ e | [ps cs] ] eqn:Hloop; simpl; [ discriminate | ].
  apply score_loop_from_empty in Hloop. destruct Hloop as [-> Hcs].
  rewrite Hcs. cbv zeta.
  destruct (Py.gt (mean_or_zero (publishable_scores_of neighbors))
                  publishable_threshold) eqn:Hgt.
  - destruct (Py.max_by snd (conf_avg_scores_of neighbors)) as [ e | best ]
      eqn:Hbest; cbv beta iota delta [Py.bind]; [ discriminate | ].
    destruct (_generate_rationale (content paper) (fst best))
      as [ e | rationale ] eqn:Hrat; [ discriminate | ].
    destruct (Dict.get (fst best) (conf_avg_scores_of neighbors))
      as [ e | best_score ]; [ discriminate | ].
    unfold Py.ret. intro Hrun. injection Hrun as <-.
    exists neighbors. split; [ reflexivity | ].
    right. split; [ exact Hgt | ].
    exists best, rationale, best_score. auto.
  - unfold Py.ret. intro Hrun. injection Hrun as <-.
    exists neighbors. split; [ reflexivity | ].
    left. split; [ exact Hgt | reflexivity ].
Qed.





(** ** The batch *)

Lemma classify_loop_spec {E : Externals} (self : PaperClassifier)
                         (papers : list Paper) (results : list Result.t) :
  fold_left (classify_step self) papers results
  = (results
     ++ map (fun paper => Py.try_except (classify_one self paper)
                                        (error_record paper)) papers)%list.
Proof.
  revert results. induction papers as [ | paper papers IH ]; intro results; simpl.
  - now rewrite app_nil_r.
  - rewrite IH. unfold classify_step. now rewrite <- app_assoc.
Qed.

Lemma classify_papers_spec {E : Externals} (refs papers : list Paper)
                           (self indexed : PaperClassifier) :
  _index_reference_papers refs self = inr (tt, indexed) ->
  classify_papers refs papers self
  = inr (map (fun paper => Py.try_except (classify_one indexed paper)
                                         (error_record paper)) papers,
         indexed).
Proof.
  intro Hindex. unfold classify_papers. rewrite Hindex. simpl.
  now rewrite classify_loop_spec.
Qed.

Lemma classify_papers_inv {E : Externals} (refs papers : list Paper)
                          (self self' : PaperClassifier)
                          (results : list Result.t) :
  classify_papers refs papers self = inr (results, self') ->
  _index_reference_papers refs self = inr (tt, self')
  /\ results = map (fun paper => Py.try_except (classify_one self' paper)
                                               (error_record paper)) papers.
Proof.
  unfold classify_papers.
  destruct (_index_reference_papers refs self) as [ e | [[] indexed] ] eqn:Hindex;
    simpl; [ discriminate | ].
  intro H. injection H as <- <-. split; [ reflexivity | ].
  now rewrite classify_loop_spec.
Qed.



(** C3, as the source has it: in every record [classify_papers]
    returns, a conference other than ["na"] and ["error"] implies
    publishable, and a rationale ["na"] implies not publishable; a
    publishable record names one of the five conferences and carries a
    rationale other than ["na"], and the record of a failed paper,
    with conference ["error"], is not publishable. *)
Theorem result_invariant :
  forall (E : Externals) (reference_papers papers : list Paper)
         (self self' : PaperClassifier) (results : list Result.t),
    classify_papers reference_papers papers self = inr (results, self') ->
    forall r, In r results ->
      (Result.publishable r = 1%Z \/ Result.publishable r = 0%Z)
      /\ (Result.conference r <> "na" -> Result.conference r <> "error" ->
          Result.publishable r = 1%Z)
      /\ (Result.rationale r = "na" -> Result.publishable r = 0%Z)
      /\ (Result.publishable r = 1%Z ->
          In (Result.conference r) conferences /\ Result.rationale r <> "na")
      /\ (Result.conference r = "error" -> Result.publishable r = 0%Z).
Proof.
  intros E refs papers self self' results Hrun r Hin.
  apply classify_papers_inv in Hrun. destruct Hrun as [_ ->].
  apply in_map_iff in Hin. destruct Hin as [paper [<- _]].
  destruct (classify_one self' paper) as [ e | r ] eqn:Hone; simpl.
  - repeat split; auto; try congruence; discriminate.
  - destruct (classify_one_inv _ _ Hone)
      as [n [_ [[_ ->] | [_ [best [rationale [s [Hmax [Hrat ->]]]]]]]]]; simpl.
    + repeat split; auto; try congruence; discriminate.
    + apply generate_rationale_inv in Hrat. destruct Hrat as [answers ->].
      apply max_by_spec in Hmax. destruct Hmax as [b [a [Hsplit _]]].
      assert (In (fst best) conferences) as Hconf.
      { assert (In best (conf_avg_scores_of n)) as Hbest
          by (rewrite Hsplit; apply in_or_app; right; now left).
        unfold conf_avg_scores_of in Hbest. apply in_map_iff in Hbest.
        destruct Hbest as [c [<- Hc]]. exact Hc. }
      split; [ now left | ].
      split; [ reflexivity | ].
      split; [ intro Hna; exfalso; revert Hna; apply rationale_of_not_na | ].
      split; [ intros _; split; [ exact Hconf | apply rationale_of_not_na ] | ].
      intro Herr. rewrite Herr in Hconf. exfalso.
      unfold conferences in Hconf. simpl in Hconf. intuition discriminate.
Qed.

Lemma result_invariant_witness :
  exists r,
    In r [ {| Result.paper_id := "P003"; Result.publishable := 0;
              Result.conference := "na"; Result.rationale := "na";
              Result.confidence_scores := [("publishability", 3 # 10)] |} ]
    /\ (Result.rationale r = "na" -> Result.publishable r = 0%Z).
Proof.
  eexists. split; [ left; reflexivity | ].
  refine (proj1 (proj2 (proj2
    (@result_invariant (Demo.env Demo.span_a Demo.span_b)
       Demo.references [Demo.paper "P003" "far" None None]
       (Demo.self Demo.span_a Demo.span_b []) _ _ eq_refl _ _)))).
  left. vm_compute. reflexivity.
Defined.

(** C3 as stated fails on the record of a failed paper: its conference
    is ["error"], not ["na"], and it is not publishable. *)
Lemma error_record_is_not_publishable :
  exists results self' r,
    classify_papers Demo.references Demo.papers
                    (Demo.self Demo.span_a Demo.span_b [])
    = inr (results, self')
    /\ In r results
    /\ Result.conference r <> "na"
    /\ Result.publishable r <> 1%Z.
Proof.
  eexists. eexists.
  exists (error_record (Demo.paper "P002" "offline" None None)
            (Py.RuntimeError "connection refused")).
  split; [ vm_compute; reflexivity | ].
  split; [ right; left; vm_compute; reflexivity | ].
  split; simpl; discriminate.
Qed.

(** ** Metrics *)

Lemma guarded_ratio_spec (a b : Z) :
  guarded_ratio a b
  = inr (if (b >? 0)%Z then (inject_Z a / inject_Z b)%Q else 0%Q).
Proof.
  unfold guarded_ratio, Py.truediv.
  destruct (b >? 0)%Z eqn:Hb; [ | reflexivity ].
  destruct (b =? 0)%Z eqn:Hz; [ | reflexivity ].
  apply Z.eqb_eq in Hz. subst b. discriminate.
Qed.

Lemma f1_spec (p r : Q) :
  (if Py.gt (p + r) 0 then Py.fdiv (2 * (p * r)) (p + r) else Py.ret 0)%Q
  = inr (f1_of p r).
Proof.
  unfold f1_of, Py.fdiv.
  destruct (Py.gt (p + r) 0) eqn:Hgt; [ | reflexivity ].
  destruct (Qeq_bool (p + r) 0) eqn:Hz; [ | reflexivity ].
  apply gt_spec in Hgt. apply Qeq_bool_iff in Hz.
  rewrite Hz in Hgt. exfalso. revert Hgt. apply Qlt_irrefl.
Qed.

Lemma metrics_of_spec (c : counts) (total : Z) :
  metrics_of c total
  = if (total =? 0)%Z then inl Py.ZeroDivisionError
    else inr (metrics_record c total).
Proof.
  unfold metrics_of, Py.truediv.
  destruct (total =? 0)%Z; [ reflexivity | ].
  cbv beta iota delta [Py.bind Py.ret].
  rewrite !guarded_ratio_spec. cbv beta iota.
  rewrite f1_spec. reflexivity.
Qed.

Lemma calculate_metrics_spec {E : Externals} (validation_papers : list Paper)
                             (self indexed : PaperClassifier) :
  _index_reference_papers (Self.reference_papers self) self = inr (tt, indexed) ->
  calculate_metrics validation_papers self
  = match validation_papers with
    | [] => inl Py.ZeroDivisionError
    | _ :: _ =>
        inr (metrics_record
               (counts_of validation_papers
                  (map (fun paper => Py.try_except (classify_one indexed paper)
                                                   (error_record paper))
                       validation_papers))
               (Py.len validation_papers),
             indexed)
    end.
Proof.
  intro Hindex. unfold calculate_metrics.
  rewrite (@classify_papers_spec _ _ validation_papers _ _ Hindex).
  cbv beta iota delta [Py.bind]. rewrite metrics_of_spec.
  destruct validation_papers as [ | paper rest ]; [ reflexivity | ].
  replace (Py.len (paper :: rest) =? 0)%Z with false; [ reflexivity | ].
  symmetry. apply Z.eqb_neq. unfold Py.len. simpl List.length. lia.
Qed.



(** ** The counting loop and the derived metrics *)

Lemma tally_cons (f : Paper -> Result.t -> bool) (p : Paper) (r : Result.t)
                 (pairs : list (Paper * Result.t)) :
  Confusion.tally f ((p, r) :: pairs)
  = ((if f p r then 1 else 0) + Confusion.tally f pairs)%Z.
Proof.
  unfold Confusion.tally, Py.len. simpl.
  destruct (f p r); simpl List.length; lia.
Qed.

Lemma tally_nonneg (f : Paper -> Result.t -> bool)
                   (pairs : list (Paper * Result.t)) :
  (0 <= Confusion.tally f pairs)%Z.
Proof. unfold Confusion.tally, Py.len. lia. Qed.

Lemma count_loop_spec (pairs : list (Paper * Result.t)) :
  forall c : counts,
    fold_left count_step pairs c
    = {| true_positives := true_positives c + Confusion.TP pairs;
         false_positives := false_positives c + Confusion.FP pairs;
         true_negatives := true_negatives c + Confusion.TN pairs;
         false_negatives := false_negatives c + Confusion.FN pairs;
         conference_correct :=
           conference_correct c + Confusion.conferenceCorrect pairs;
         total_publishable :=
           total_publishable c + Confusion.totalActuallyPublishable pairs |}%Z.
Proof.
  induction pairs as [ | [p r] pairs IH ]; intro c.
  - destruct c. simpl. unfold Confusion.TP, Confusion.FP, Confusion.TN,
      Confusion.FN, Confusion.conferenceCorrect,
      Confusion.totalActuallyPublishable, Confusion.tally, Py.len. simpl.
    f_equal; lia.
  - simpl fold_left. rewrite IH.
    unfold Confusion.TP, Confusion.FP, Confusion.TN, Confusion.FN,
      Confusion.conferenceCorrect, Confusion.totalActuallyPublishable.
    rewrite !tally_cons.
    repeat match goal with
           | |- context [Confusion.tally ?f pairs] =>
               generalize (Confusion.tally f pairs); intro
           end.
    unfold count_step, Confusion.predicted, Confusion.actual.
    destruct (Result.publishable r =? 1)%Z, (is_str (label p) "Publishable"),
      (same_conference p r); cbn -[Z.add]; f_equal; lia.
Qed.

Lemma counts_of_spec (papers : list Paper) (results : list Result.t) :
  counts_of papers results
  = let pairs := combine papers results in
    {| true_positives := Confusion.TP pairs;
       false_positives := Confusion.FP pairs;
       true_negatives := Confusion.TN pairs;
       false_negatives := Confusion.FN pairs;
       conference_correct := Confusion.conferenceCorrect pairs;
       total_publishable := Confusion.totalActuallyPublishable pairs |}.
Proof. unfold counts_of. now rewrite count_loop_spec. Qed.

Lemma guard_is_nonzero (b : Z) (x : Q) :
  (0 <= b)%Z ->
  (if (b >? 0)%Z then x else 0%Q) = (if (b =? 0)%Z then 0%Q else x).
Proof.
  intro Hb. destruct (b >? 0)%Z eqn:Hg, (b =? 0)%Z eqn:Hz; trivial.
  - apply Z.eqb_eq in Hz. lia.
  - apply Z.eqb_neq in Hz. lia.
Qed.

Lemma ratio_nonneg (a b : Z) :
  (0 <= a)%Z -> (0 <= b)%Z -> (0 <= Confusion.ratio_or_zero a b)%Q.
Proof.
  intros Ha Hb. unfold Confusion.ratio_or_zero.
  destruct (b =? 0)%Z eqn:Hz; [ apply Qle_refl | ].
  apply Z.eqb_neq in Hz.
  apply Qle_shift_div_l.
  - change 0%Q with (inject_Z 0). rewrite <- Zlt_Qlt. lia.
  - rewrite Qmult_0_l. change 0%Q with (inject_Z 0). rewrite <- Zle_Qle. lia.
Qed.

Lemma f1_is_harmonic_mean (p r : Q) :
  (0 <= p)%Q -> (0 <= r)%Q ->
  f1_of p r = Confusion.harmonic_mean_or_zero p r.
Proof.
  intros Hp Hr. unfold f1_of, Confusion.harmonic_mean_or_zero.
  destruct (Py.gt (p + r) 0) eqn:Hgt.
  - apply gt_spec in Hgt.
    destruct (Qeq_bool p 0) eqn:Hp0; [ | reflexivity ].
    destruct (Qeq_bool r 0) eqn:Hr0; [ | reflexivity ].
    apply Qeq_bool_iff in Hp0, Hr0. exfalso.
    rewrite Hp0, Hr0 in Hgt. revert Hgt. apply Qlt_irrefl.
  - apply gt_false_spec in Hgt.
    assert (p == 0)%Q as Hp0 by lra.
    assert (r == 0)%Q as Hr0 by lra.
    apply Qeq_bool_iff in Hp0, Hr0. now rewrite Hp0, Hr0.
Qed.

(** On a validation list with a paper, the metrics are the ones the
    description gives. *)
Lemma metrics_follow_the_formulas {E : Externals}
      (paper : Paper) (rest : list Paper) (self indexed : PaperClassifier) :
  _index_reference_papers (Self.reference_papers self) self = inr (tt, indexed) ->
  exists results m,
    classify_papers (Self.reference_papers self) (paper :: rest) self
    = inr (results, indexed)
    /\ calculate_metrics (paper :: rest) self = inr (m, indexed)
    /\ let pairs := combine (paper :: rest) results in
       let total := Py.len (paper :: rest) in
       Metrics.accuracy m
       = (inject_Z (Confusion.TP pairs + Confusion.TN pairs) / inject_Z total)%Q
       /\ Metrics.precision m
          = Confusion.ratio_or_zero (Confusion.TP pairs)
              (Confusion.TP pairs + Confusion.FP pairs)
       /\ Metrics.recall m
          = Confusion.ratio_or_zero (Confusion.TP pairs)
              (Confusion.TP pairs + Confusion.FN pairs)
       /\ Metrics.f1_score m
          = Confusion.harmonic_mean_or_zero (Metrics.precision m)
                                            (Metrics.recall m)
       /\ Metrics.conference_accuracy m
          = Confusion.ratio_or_zero (Confusion.conferenceCorrect pairs)
              (Confusion.totalActuallyPublishable pairs).
Proof.
  intro Hindex.
  rewrite (@classify_papers_spec _ _ (paper :: rest) _ _ Hindex).
  rewrite (@calculate_metrics_spec _ (paper :: rest) _ _ Hindex).
  eexists. eexists. split; [ reflexivity | split; [ reflexivity | ] ].
  rewrite counts_of_spec.
  set (pairs := combine (paper :: rest) _).
  pose proof (tally_nonneg (fun p r => Confusion.predicted r && Confusion.actual p) pairs) as Htp.
  pose proof (tally_nonneg (fun p r => Confusion.predicted r && negb (Confusion.actual p)) pairs) as Hfp.
  pose proof (tally_nonneg (fun p r => negb (Confusion.predicted r) && Confusion.actual p) pairs) as Hfn.
  pose proof (tally_nonneg (fun p _ => Confusion.actual p) pairs) as Htot.
  fold (Confusion.TP pairs) in Htp. fold (Confusion.FP pairs) in Hfp.
  fold (Confusion.FN pairs) in Hfn.
  fold (Confusion.totalActuallyPublishable pairs) in Htot.
  cbv zeta. unfold metrics_record. cbn [Metrics.accuracy Metrics.precision
    Metrics.recall Metrics.f1_score Metrics.conference_accuracy
    true_positives false_positives true_negatives false_negatives
    conference_correct total_publishable].
  unfold Confusion.ratio_or_zero.
  rewrite !guard_is_nonzero by lia.
  repeat split.
  apply f1_is_harmonic_mean.
  - apply (@ratio_nonneg (Confusion.TP pairs)
                         (Confusion.TP pairs + Confusion.FP pairs)); lia.
  - apply (@ratio_nonneg (Confusion.TP pairs)
                         (Confusion.TP pairs + Confusion.FN pairs)); lia.
Qed.

(** C5 at the empty validation list: the four guarded ratios fall
    back to 0, the accuracy does not, and [calculate_metrics] raises
    [ZeroDivisionError]. *)
Theorem empty_validation_list_raises :
  guarded_ratio 0 0 = inr 0%Q
  /\ (if Py.gt (0 + 0) 0 then Py.fdiv (2 * (0 * 0)) (0 + 0) else Py.ret 0)%Q
     = inr 0%Q
  /\ Py.truediv (0 + 0) (Py.len (@nil Paper)) = inl Py.ZeroDivisionError
  /\ metrics_of zero_counts (Py.len (@nil Paper)) = inl Py.ZeroDivisionError
  /\ calculate_metrics [] (Demo.self Demo.span_a Demo.span_b [])
     = inl Py.ZeroDivisionError.
Proof.
  repeat split; reflexivity.
Qed.

(** ** Folds *)

Lemma fold_sizes_length (k n : nat) : List.length (fold_sizes k n) = k.
Proof. unfold fold_sizes. now rewrite length_map, length_seq. Qed.

Lemma runs_length (sizes indices : list nat) :
  List.length (runs sizes indices) = List.length sizes.
Proof.
  revert indices. induction sizes as [ | s sizes IH ]; intro indices; simpl.
  - reflexivity.
  - now rewrite IH.
Qed.

Lemma indicator_sum (q r k : nat) :
  list_sum (map (fun i => q + (if i <? r then 1 else 0))%nat (seq 0 k))
  = (k * q + Nat.min r k)%nat.
Proof.
  induction k as [ | k IH ].
  - simpl. lia.
  - rewrite seq_S, map_app, list_sum_app, IH. simpl.
    destruct (k <? r)%nat eqn:Hk.
    + apply Nat.ltb_lt in Hk. lia.
    + apply Nat.ltb_ge in Hk. lia.
Qed.

Lemma fold_sizes_sum (k n : nat) :
  (0 < k)%nat -> list_sum (fold_sizes k n) = n.
Proof.
  intro Hk. unfold fold_sizes. rewrite indicator_sum.
  assert (n mod k < k)%nat as Hmod by (apply Nat.mod_upper_bound; lia).
  rewrite Nat.min_l by lia.
  rewrite (Nat.div_mod_eq n k) at 3. lia.
Qed.



Lemma test_mask_spec (test : list nat) (i : nat) :
  test_mask test i = true <-> In i test.
Proof.
  unfold test_mask. rewrite existsb_exists. split.
  - intros [x [Hin Heq]]. apply Nat.eqb_eq in Heq. now subst.
  - intro Hin. exists i. split; [ exact Hin | apply Nat.eqb_refl ].
Qed.









(** * More of the source: properties *)

(** ** Strings and their characters *)

Lemma slen_chars (s : string) :
  Py.slen s = Z.of_nat (List.length (Py.chars s)).
Proof.
  unfold Py.slen, Py.chars. f_equal.
  induction s as [ | c s IH ]; simpl; congruence.
Qed.

Lemma chars_of_chars (l : list ascii) : Py.chars (Py.of_chars l) = l.
Proof. apply list_ascii_of_string_of_list_ascii. Qed.

Lemma of_chars_chars (s : string) : Py.of_chars (Py.chars s) = s.
Proof. apply string_of_list_ascii_of_string. Qed.

Lemma chars_lower (s : string) :
  Py.chars (Py.lower s) = map Py.lower_char (Py.chars s).
Proof. unfold Py.lower. apply chars_of_chars. Qed.

Lemma slen_lower (s : string) : Py.slen (Py.lower s) = Py.slen s.
Proof. now rewrite !slen_chars, chars_lower, length_map. Qed.



Lemma common_positions_refl (l : list ascii) :
  common_positions l l = List.length l.
Proof.
  induction l as [ | c l IH ]; simpl; [ reflexivity | ].
  now rewrite Ascii.eqb_refl, IH.
Qed.


Lemma common_refl (s : string) : common s s = Py.slen s.
Proof.
  unfold common. rewrite common_positions_refl, <- slen_chars.
  apply slen_lower.
Qed.



(** ** [_similar_strings] *)

(** X1: with a threshold below 1, a string is similar to itself
    exactly when it has at least 10 characters. *)
Theorem similar_to_itself :
  forall (threshold : Q) (s : string),
    (threshold < 1)%Q ->
    (_similar_strings_with threshold s s = true <-> (10 <= Py.slen s)%Z).
Proof.
  intros threshold s Hthr. unfold _similar_strings_with.
  rewrite orb_diag.
  destruct (Py.slen s <? 10)%Z eqn:Hlen.
  - apply Z.ltb_lt in Hlen. split; [ discriminate | lia ].
  - apply Z.ltb_ge in Hlen. split; [ intros _; exact Hlen | intros _ ].
    apply gt_spec. unfold match_ratio, Py.int_to_float.
    rewrite common_refl, Z.max_id.
    assert (0 < inject_Z (Py.slen s))%Q as Hpos.
    { change 0%Q with (inject_Z 0). rewrite <- Zlt_Qlt. lia. }
    apply Qlt_shift_div_l; [ exact Hpos | ].
    rewrite <- (Qmult_1_l (inject_Z (Py.slen s))) at 2.
    now apply Qmult_lt_compat_r.
Qed.

Lemma similar_to_itself_witness :
  _similar_strings_with (7 # 10) Demo.span_a Demo.span_a = true
  <-> (10 <= Py.slen Demo.span_a)%Z.
Proof.
  apply (@similar_to_itself (7 # 10) Demo.span_a). reflexivity.
Defined.




(** ** The de-duplication loop, again *)

Lemma subsequence_refl {A} (l : list A) : subsequence l l.
Proof. induction l; constructor; assumption. Qed.

Lemma subsequence_nil_l {A} (l : list A) : subsequence [] l.
Proof. induction l; constructor; assumption. Qed.

Lemma subsequence_incl {A} (l1 l2 : list A) :
  subsequence l1 l2 -> incl l1 l2.
Proof.
  induction 1 as [ | a l1 l2 _ IH | a l1 l2 _ IH ]; intros x Hx.
  - exact Hx.
  - destruct Hx as [<- | Hx]; [ now left | right; now apply IH ].
  - right. now apply IH.
Qed.

Lemma subsequence_length {A} (l1 l2 : list A) :
  subsequence l1 l2 -> (List.length l1 <= List.length l2)%nat.
Proof. induction 1; simpl; lia. Qed.

(** What the loop adds to the list it starts from. *)
Lemma dedup_loop_subsequence (answers u : list string) :
  exists more,
    fold_left dedup_step answers u = (u ++ more)%list
    /\ subsequence more answers.
Proof.
  revert u. induction answers as [ | ans answers IH ]; intro u; simpl.
  - exists []. rewrite app_nil_r. split; [ reflexivity | constructor ].
  - destruct (IH (dedup_step u ans)) as [more [Hmore Hsub]]. rewrite Hmore.
    unfold dedup_step. destruct (negb _).
    + exists (ans :: more). rewrite <- app_assoc.
      split; [ reflexivity | now constructor ].
    + exists more. split; [ reflexivity | now constructor ].
Qed.

Lemma dedup_loop_covers (answers u : list string) :
  forall ans, In ans answers ->
    In ans (fold_left dedup_step answers u)
    \/ exists kept, In kept (fold_left dedup_step answers u)
                    /\ _similar_strings ans kept = true.
Proof.
  revert u. induction answers as [ | a answers IH ]; intros u ans Hin;
    [ destruct Hin | ].
  simpl. destruct Hin as [<- | Hin]; [ | now apply IH ].
  destruct (dedup_loop_extends answers (dedup_step u a)) as [more ->].
  unfold dedup_step.
  destruct (Py.any (fun existing => _similar_strings a existing) u) eqn:Hany;
    simpl.
  - right. apply existsb_exists in Hany. destruct Hany as [kept [Hkept Hsim]].
    exists kept. split; [ apply in_or_app; now left | exact Hsim ].
  - left. apply in_or_app. left. apply in_or_app. right. now left.
Qed.

(** X4: the de-duplicated answers are answers of the input, in their
    order, the first of them always among them; an answer that is
    left out is similar to one that is kept, and no kept answer is
    similar to a kept answer before it. *)
Theorem unique_answers_select_and_cover :
  forall answers : list string,
    subsequence (unique_answers_of answers) answers
    /\ (List.length (unique_answers_of answers) <= List.length answers)%nat
    /\ (forall first rest, answers = first :: rest ->
          exists more, unique_answers_of answers = first :: more)
    /\ (forall ans, In ans answers ->
          In ans (unique_answers_of answers)
          \/ exists kept, In kept (unique_answers_of answers)
                          /\ _similar_strings ans kept = true)
    /\ pairwise_distinct (unique_answers_of answers).
Proof.
  intro answers.
  destruct (dedup_loop_subsequence answers []) as [more [Hmore Hsub]].
  simpl in Hmore.
  assert (subsequence (unique_answers_of answers) answers) as Hsel
    by (unfold unique_answers_of; now rewrite Hmore).
  split; [ exact Hsel | ].
  split; [ now apply subsequence_length | ].
  split; [ intros first rest ->; apply unique_answers_head | ].
  split; [ apply dedup_loop_covers | apply unique_answers_distinct ].
Qed.

Lemma dedup_loop_fixed (answers u : list string) :
  pairwise_distinct (u ++ answers)%list ->
  fold_left dedup_step answers u = (u ++ answers)%list.
Proof.
  revert u. induction answers as [ | ans answers IH ]; intros u Hd; simpl.
  - now rewrite app_nil_r.
  - assert (dedup_step u ans = (u ++ [ans])%list) as Hstep.
    { unfold dedup_step.
      destruct (Py.any (fun existing => _similar_strings ans existing) u)
        eqn:Hany; [ exfalso | reflexivity ].
      apply existsb_exists in Hany. destruct Hany as [kept [Hkept Hsim]].
      apply in_split in Hkept. destruct Hkept as [l1 [l2 ->]].
      rewrite <- !app_assoc in Hd. simpl in Hd.
      unfold pairwise_distinct in Hd.
      assert (forall (l : list string) x rest,
                 ForallOrdPairs (fun earlier later =>
                                   _similar_strings later earlier = false)
                                (l ++ x :: rest)%list ->
                 Forall (fun later => _similar_strings later x = false) rest)
        as Htail.
      { induction l as [ | y l IHl ]; intros x rest H; simpl in H;
          inversion H; subst; [ assumption | now apply IHl ]. }
      apply Htail in Hd. rewrite Forall_forall in Hd.
      assert (_similar_strings ans kept = false) as Habs
        by (apply Hd; apply in_or_app; right; now left).
      congruence. }
    rewrite Hstep, IH; rewrite <- app_assoc; [ reflexivity | exact Hd ].
Qed.

(** X5: de-duplicating twice changes nothing: the loop keeps a list
    in which no answer is similar to an earlier one as it is. *)
Theorem unique_answers_idempotent :
  forall answers : list string,
    unique_answers_of (unique_answers_of answers) = unique_answers_of answers.
Proof.
  intro answers. unfold unique_answers_of at 1.
  apply (dedup_loop_fixed (unique_answers_of answers) []).
  apply unique_answers_distinct.
Qed.

Lemma similar_default_refl (s : string) :
  (10 <= Py.slen s)%Z -> _similar_strings s s = true.
Proof.
  intro Hlen. apply similar_spec. split; [ exact Hlen | split; [ exact Hlen | ] ].
  unfold match_ratio, default_threshold, Py.int_to_float.
  rewrite common_refl, Z.max_id.
  apply Qlt_shift_div_l.
  - change 0%Q with (inject_Z 0). rewrite <- Zlt_Qlt. lia.
  - unfold Qlt, Qmult, inject_Z. cbn [Qnum Qden]. lia.
Qed.

Lemma pairwise_distinct_NoDup (l : list string) :
  Forall (fun s => 10 <= Py.slen s)%Z l -> pairwise_distinct l -> NoDup l.
Proof.
  unfold pairwise_distinct. intros Hlen Hd.
  induction Hd as [ | x l Hx Hd IH ]; constructor.
  - intro Hin. rewrite Forall_forall in Hx.
    inversion Hlen; subst.
    pose proof (Hx x Hin) as Habs. simpl in Habs.
    rewrite similar_default_refl in Habs by assumption. discriminate.
  - apply IH. now inversion Hlen.
Qed.

(** X6: when every answer has at least 10 characters, as the answers
    that pass the length test have, the de-duplicated list holds no
    answer twice. *)
Theorem unique_answers_never_repeat :
  forall answers : list string,
    Forall (fun ans => 10 <= Py.slen ans)%Z answers ->
    NoDup (unique_answers_of answers)
    /\ NoDup (Py.slice 0 2 (unique_answers_of answers)).
Proof.
  intros answers Hlen.
  assert (NoDup (unique_answers_of answers)) as Hnd.
  { apply pairwise_distinct_NoDup; [ | apply unique_answers_distinct ].
    destruct (dedup_loop_subsequence answers []) as [more [Hmore Hsub]].
    unfold unique_answers_of. rewrite Hmore. simpl.
    rewrite Forall_forall in *. intros s Hs. apply Hlen.
    exact (subsequence_incl Hsub _ Hs). }
  split; [ exact Hnd | ].
  unfold Py.slice. simpl skipn.
  destruct (unique_answers_of answers) as [ | x [ | y l ] ]; simpl;
    try exact Hnd.
  inversion Hnd as [ | ? ? Hx Hrest ]; subst.
  constructor; [ | constructor; [ intros [] | constructor ] ].
  intros [-> | []]. apply Hx. now left.
Qed.

Lemma unique_answers_never_repeat_witness :
  NoDup (unique_answers_of [Demo.span_a; Demo.span_b; Demo.span_a]).
Proof.
  apply (@unique_answers_never_repeat [Demo.span_a; Demo.span_b; Demo.span_a]).
  repeat constructor; vm_compute; discriminate.
Defined.

(** ** Dictionary lookups *)

Lemma dict_get_found {V} (k : string) (d : Dict.t V) :
  In k (map fst d) -> exists v, Dict.get k d = inr v /\ In (k, v) d.
Proof.
  induction d as [ | [k' v] d IH ]; simpl; [ intros [] | ].
  intro Hin. destruct (String.eqb k k') eqn:Hk.
  - apply String.eqb_eq in Hk. subst k'. exists v. split; [ reflexivity | now left ].
  - destruct Hin as [<- | Hin]; [ rewrite String.eqb_refl in Hk; discriminate | ].
    destruct (IH Hin) as [v' [Hget Hv']]. exists v'. split; [ exact Hget | now right ].
Qed.

Lemma dict_get_missing {V} (k : string) (d : Dict.t V) :
  ~ In k (map fst d) -> Dict.get k d = inl (Py.KeyError k).
Proof.
  induction d as [ | [k' v] d IH ]; simpl; [ reflexivity | ].
  intro Hnotin. destruct (String.eqb k k') eqn:Hk.
  - apply String.eqb_eq in Hk. subst k'. exfalso. apply Hnotin. now left.
  - apply IH. intro Hin. apply Hnotin. now right.
Qed.

(** ** The question loop *)

(** The body of [for question in questions], for a given context. *)
Lemma question_loop_raises {E : Externals} (context : string) (e : Py.exn)
      (qs : list string) :
  forall answers : list string,
    Py.for_each (fun answers question =>
                   answer <- qa_answer question context ;;
                   Py.ret (keep_answer answers answer)) qs answers
    = inl e
    <-> exists asked question rest,
          qs = (asked ++ question :: rest)%list
          /\ Forall (fun q => exists r, qa_answer q context = inr r) asked
          /\ qa_answer question context = inl e.
Proof.
  induction qs as [ | q qs IH ]; intro answers; simpl.
  - split; [ discriminate | ].
    intros [asked [question [rest [Heq _]]]]. destruct asked; discriminate.
  - destruct (qa_answer q context) as [ e' | r ] eqn:Hq; simpl.
    + split.
      * intro H. injection H as ->. exists [], q, qs. repeat split; auto.
      * intros [asked [question [rest [Heq [Hasked Hfail]]]]].
        destruct asked as [ | q' asked ]; simpl in Heq; injection Heq as <- _.
        -- congruence.
        -- inversion Hasked as [ | ? ? [r Hr] _ ]; subst. congruence.
    + rewrite IH. split.
      * intros [asked [question [rest [-> [Hasked Hfail]]]]].
        exists (q :: asked), question, rest. repeat split; auto.
        constructor; eauto.
      * intros [asked [question [rest [Heq [Hasked Hfail]]]]].
        destruct asked as [ | q' asked ]; simpl in Heq; injection Heq as <- ->.
        -- congruence.
        -- exists asked, question, rest. repeat split; auto.
           now inversion Hasked.
Qed.

(** X7: for a conference outside the five of the table,
    [_generate_rationale] raises [KeyError] on the conference name
    before the model is asked anything; for one of the five it raises
    exactly when the model raises on one of the three questions, with
    the exception of the first question that fails, and it returns
    when the model answers all three. *)
Theorem rationale_raises_only_with_the_model :
  forall (E : Externals) (paper_content conference : string),
    (~ In conference conferences ->
     _generate_rationale paper_content conference
     = inl (Py.KeyError conference))
    /\ (In conference conferences ->
        exists conference_context,
          Dict.get conference conference_contexts = inr conference_context
          /\ let context :=
               rationale_context (title_of paper_content)
                                 (abstract_of paper_content)
                                 conference_context in
             (forall e,
                 _generate_rationale paper_content conference = inl e
                 <-> exists asked question rest,
                       questions conference = (asked ++ question :: rest)%list
                       /\ Forall (fun q => exists r,
                                      qa_answer q context = inr r) asked
                       /\ qa_answer question context = inl e)
             /\ ((forall question, In question (questions conference) ->
                    exists r, qa_answer question context = inr r) ->
                 exists rationale,
                   _generate_rationale paper_content conference
                   = inr rationale)).
Proof.
  intros E paper_content conference. split.
  - intro Hnotin. unfold _generate_rationale.
    rewrite dict_get_missing; [ reflexivity | exact Hnotin ].
  - intro Hin.
    destruct (@dict_get_found _ conference conference_contexts Hin)
      as [ctx [Hget _]].
    exists ctx. split; [ exact Hget | ]. cbv zeta.
    assert (forall e,
               _generate_rationale paper_content conference = inl e
               <-> exists asked question rest,
                     questions conference = (asked ++ question :: rest)%list
                     /\ Forall (fun q => exists r,
                                    qa_answer q
                                      (rationale_context (title_of paper_content)
                                         (abstract_of paper_content) ctx)
                                    = inr r) asked
                     /\ qa_answer question
                          (rationale_context (title_of paper_content)
                             (abstract_of paper_content) ctx) = inl e)
      as Hraise.
    { intro e. rewrite <- question_loop_raises with (answers := []).
      unfold _generate_rationale. rewrite Hget.
      cbv beta iota delta [Py.bind].
      match goal with
      | |- context [Py.for_each ?body ?l ?s] =>
          destruct (Py.for_each body l s) as [ e' | answers ]
      end.
      - split; intro H; injection H as ->; reflexivity.
      - split; discriminate. }
    split; [ exact Hraise | ].
    intro Hall.
    destruct (_generate_rationale paper_content conference)
      as [ e | rationale ] eqn:Hrun; [ exfalso | eauto ].
    destruct (proj1 (Hraise e) eq_refl)
      as [asked [question [rest [Heq [_ Hfail]]]]].
    destruct (Hall question) as [r Hr]; [ | congruence ].
    rewrite Heq. apply in_or_app. right. now left.
Qed.

Lemma rationale_raises_only_with_the_model_witness :
  _generate_rationale (E := Demo.env Demo.span_a Demo.span_b) "Title. Text" "ICML"
  = inl (Py.KeyError "ICML").
Proof.
  apply (proj1 (@rationale_raises_only_with_the_model
                  (Demo.env Demo.span_a Demo.span_b) "Title. Text" "ICML")).
  vm_compute. intuition discriminate.
Defined.

(** ** Trimming and splitting *)

Lemma of_chars_app (l1 l2 : list ascii) :
  Py.of_chars (l1 ++ l2) = Py.of_chars l1 ++ Py.of_chars l2.
Proof.
  unfold Py.of_chars. induction l1 as [ | c l1 IH ]; simpl; congruence.
Qed.

Lemma lstrip_clean_head (l : list ascii) : clean_head (Py.lstrip_chars l).
Proof.
  induction l as [ | c l IH ]; simpl; [ exact I | ].
  destruct (Py.isspace c) eqn:Hc; [ exact IH | exact Hc ].
Qed.

Lemma lstrip_fixed (l : list ascii) : clean_head l -> Py.lstrip_chars l = l.
Proof. destruct l as [ | c l ]; simpl; [ reflexivity | now intros -> ]. Qed.

Lemma lstrip_suffix (l : list ascii) :
  exists spaces, l = (spaces ++ Py.lstrip_chars l)%list.
Proof.
  induction l as [ | c l [spaces IH] ]; simpl.
  - now exists [].
  - destruct (Py.isspace c).
    + exists (c :: spaces). simpl. now rewrite <- IH.
    + now exists [].
Qed.

Lemma lstrip_snoc (l : list ascii) (x : ascii) :
  Py.isspace x = false ->
  Py.lstrip_chars (l ++ [x]) = (Py.lstrip_chars l ++ [x])%list.
Proof.
  intro Hx. induction l as [ | c l IH ]; simpl.
  - now rewrite Hx.
  - destruct (Py.isspace c); [ exact IH | reflexivity ].
Qed.

Lemma rstrip_prefix (l : list ascii) :
  exists spaces, l = (Py.rstrip_chars l ++ spaces)%list.
Proof.
  unfold Py.rstrip_chars. destruct (lstrip_suffix (rev l)) as [spaces H].
  exists (rev spaces). rewrite <- rev_app_distr, <- H. now rewrite rev_involutive.
Qed.

Lemma rstrip_keeps_clean_head (l : list ascii) :
  clean_head l -> clean_head (Py.rstrip_chars l).
Proof.
  destruct l as [ | x l ]; [ intros _; exact I | ].
  simpl. intro Hx. unfold Py.rstrip_chars. simpl rev.
  rewrite lstrip_snoc by exact Hx. rewrite rev_app_distr. simpl. exact Hx.
Qed.

Lemma rstrip_fixed (l : list ascii) :
  clean_head (rev l) -> Py.rstrip_chars l = l.
Proof.
  intro H. unfold Py.rstrip_chars. rewrite lstrip_fixed by exact H.
  apply rev_involutive.
Qed.

Lemma strip_chars (s : string) :
  Py.chars (Py.strip s) = Py.rstrip_chars (Py.lstrip_chars (Py.chars s)).
Proof. unfold Py.strip. apply chars_of_chars. Qed.

(** The characters of [s.strip()] are a run of the characters of
    [s]. *)
Lemma strip_segment (s : string) :
  exists before after,
    Py.chars s = (before ++ Py.chars (Py.strip s) ++ after)%list.
Proof.
  rewrite strip_chars.
  destruct (lstrip_suffix (Py.chars s)) as [before Hb].
  destruct (rstrip_prefix (Py.lstrip_chars (Py.chars s))) as [after Ha].
  exists before, after. now rewrite <- Ha.
Qed.

Lemma strip_idempotent (s : string) : Py.strip (Py.strip s) = Py.strip s.
Proof.
  unfold Py.strip at 1. rewrite strip_chars.
  set (r := Py.rstrip_chars (Py.lstrip_chars (Py.chars s))).
  assert (clean_head r) as Hhead
    by (apply rstrip_keeps_clean_head, lstrip_clean_head).
  assert (clean_head (rev r)) as Hlast.
  { unfold r, Py.rstrip_chars. rewrite rev_involutive. apply lstrip_clean_head. }
  rewrite (lstrip_fixed _ Hhead), (rstrip_fixed _ Hlast).
  unfold Py.strip. reflexivity.
Qed.

Lemma strip_length (s : string) : (Py.slen (Py.strip s) <= Py.slen s)%Z.
Proof.
  destruct (strip_segment s) as [before [after H]].
  rewrite !slen_chars, H, !length_app. lia.
Qed.

Lemma strip_chars_incl (s : string) :
  incl (Py.chars (Py.strip s)) (Py.chars s).
Proof.
  destruct (strip_segment s) as [before [after H]].
  intros c Hc. rewrite H. apply in_or_app. right. apply in_or_app. now left.
Qed.

Lemma split_chars_first (sep : ascii) (l : list ascii) :
  exists seg segs tail,
    Py.split_chars sep l = seg :: segs
    /\ l = (seg ++ tail)%list
    /\ ~ In sep seg
    /\ (tail = [] \/ exists t, tail = sep :: t).
Proof.
  induction l as [ | c l [seg [segs [tail [Hs [Hl [Hsep Htail]]]]]] ]; simpl.
  - exists [], [], []. repeat split; auto.
  - destruct (Ascii.eqb c sep) eqn:Hc.
    + apply Ascii.eqb_eq in Hc. subst c.
      exists [], (Py.split_chars sep l), (sep :: l).
      repeat split; auto. right. now exists l.
    + rewrite Hs. exists (c :: seg), segs, tail. subst l.
      repeat split; auto.
      intros [-> | Hin]; [ | contradiction ].
      rewrite Ascii.eqb_refl in Hc. discriminate.
Qed.

(** X8: the preview from which title and abstract are derived has at
    most 1000 characters, no line break and no white space at either
    end; the [except] branch of the derivation is never taken; the
    title has no period, and the preview is the title, followed by a
    period and more text unless the preview has no period at all. *)
Theorem title_is_the_text_before_the_first_period :
  forall paper_content : string,
    let preview := content_preview paper_content in
    let title := title_of paper_content in
    (Py.slen preview <= 1000)%Z
    /\ ~ In (ascii_of_nat 10) (Py.chars preview)
    /\ Py.strip preview = preview
    /\ title_and_abstract preview
       = (title, Py.join " " (Py.slice 1 3 (Py.split "."%char preview)))
    /\ ~ In "."%char (Py.chars title)
    /\ exists tail,
         preview = title ++ tail
         /\ (tail = EmptyString \/ exists rest, tail = String "."%char rest).
Proof.
  intros paper_content preview title.
  set (cut := Py.prefix 1000 paper_content).
  set (flat := Py.replace_char (ascii_of_nat 10) " "%char cut).
  assert (Py.slen flat <= 1000)%Z as Hflat.
  { unfold flat, cut, Py.replace_char, Py.prefix.
    rewrite slen_chars, !chars_of_chars, length_map.
    pose proof (firstn_le_length 1000 (Py.chars paper_content)). lia. }
  split.
  { pose proof (strip_length flat). unfold preview, content_preview.
    fold cut. fold flat. lia. }
  split.
  { intro Hin. apply strip_chars_incl in Hin.
    unfold Py.replace_char in Hin. rewrite chars_of_chars in Hin.
    apply in_map_iff in Hin. destruct Hin as [c [Hc _]].
    destruct (Ascii.eqb c (ascii_of_nat 10)) eqn:Heq.
    - discriminate Hc.
    - subst c. rewrite Ascii.eqb_refl in Heq. discriminate. }
  split; [ apply strip_idempotent | ].
  unfold title, title_of, title_and_abstract. fold preview.
  unfold Py.split.
  destruct (split_chars_first "."%char (Py.chars preview))
    as [seg [segs [tail [Hs [Hl [Hsep Htail]]]]]].
  rewrite Hs. simpl.
  split; [ reflexivity | ].
  split; [ now rewrite chars_of_chars | ].
  exists (Py.of_chars tail). split.
  - rewrite <- of_chars_app, <- Hl. symmetry. apply of_chars_chars.
  - destruct Htail as [-> | [t ->]]; [ now left | right ].
    exists (Py.of_chars t). reflexivity.
Qed.

(** ** The scoring loop, again *)

Lemma append_at_found {V} (k : string) (x : V) (d : Dict.t (list V)) :
  In k (map fst d) ->
  exists d', Dict.append_at k x d = inr d' /\ map fst d' = map fst d.
Proof.
  induction d as [ | [k' vs] d IH ]; simpl; [ intros [] | ].
  intro Hin. destruct (String.eqb k k') eqn:Hk.
  - eexists. split; reflexivity.
  - destruct Hin as [<- | Hin]; [ rewrite String.eqb_refl in Hk; discriminate | ].
    destruct (IH Hin) as [d' [-> Hkeys]]. simpl.
    eexists. split; [ reflexivity | ]. simpl. now rewrite Hkeys.
Qed.

Lemma append_at_missing {V} (k : string) (x : V) (d : Dict.t (list V)) :
  ~ In k (map fst d) -> Dict.append_at k x d = inl (Py.KeyError k).
Proof.
  induction d as [ | [k' vs] d IH ]; simpl; [ reflexivity | ].
  intro Hnotin. destruct (String.eqb k k') eqn:Hk.
  - apply String.eqb_eq in Hk. subst k'. exfalso. apply Hnotin. now left.
  - rewrite IH; [ reflexivity | ]. intro Hin. apply Hnotin. now right.
Qed.

Lemma known_conference (conf : string) :
  existsb (String.eqb conf) conferences = true <-> In conf conferences.
Proof.
  rewrite existsb_exists. split.
  - intros [c [Hc Heq]]. apply String.eqb_eq in Heq. now subst.
  - intro Hin. exists conf. split; [ exact Hin | apply String.eqb_refl ].
Qed.

(** The loop raises on the first tag it cannot file and on nothing
    else. *)
Lemma score_loop_outcome (neighbors : list Neighbor) :
  forall (ps : list Q) (cs : Dict.t (list Q)),
    map fst cs = conferences ->
    match first_unknown_tag neighbors with
    | Some conf =>
        Py.for_each score_step neighbors (ps, cs) = inl (Py.KeyError conf)
    | None =>
        exists ps' cs', Py.for_each score_step neighbors (ps, cs) = inr (ps', cs')
    end.
Proof.
  induction neighbors as [ | n neighbors IH ]; intros ps cs Hkeys.
  - simpl. eauto.
  - change (first_unknown_tag (n :: neighbors))
      with (match unknown_tag n with
            | Some conf => Some conf
            | None => first_unknown_tag neighbors
            end).
    change (Py.for_each score_step (n :: neighbors) (ps, cs))
      with (Py.bind (score_step (ps, cs) n) (Py.for_each score_step neighbors)).
    unfold unknown_tag, score_step. fold (labelled_publishable n).
    cbv beta iota zeta.
    destruct (labelled_publishable n);
      [ | cbv beta iota delta [Py.bind Py.ret]; apply IH; exact Hkeys ].
    destruct (truthy (Meta.conference (metadata n))) as [ conf | ];
      [ | cbv beta iota delta [Py.bind Py.ret]; apply IH; exact Hkeys ].
    destruct (existsb (String.eqb conf) conferences) eqn:Hknown.
    + apply known_conference in Hknown. rewrite <- Hkeys in Hknown.
      destruct (append_at_found conf (score n) cs Hknown) as [cs' [-> Hkeys']].
      cbv beta iota delta [Py.bind Py.ret]. apply IH. congruence.
    + rewrite append_at_missing; [ reflexivity | ].
      rewrite Hkeys. intro Hin. apply known_conference in Hin. congruence.
Qed.

Lemma filter_implied {A} (f g : A -> bool) (l : list A) :
  (forall x, f x = true -> g x = true) ->
  filter f (filter g l) = filter f l.
Proof.
  intro Himp. induction l as [ | x l IH ]; simpl; [ reflexivity | ].
  destruct (g x) eqn:Hg; simpl.
  - now rewrite IH.
  - destruct (f x) eqn:Hf; [ | exact IH ].
    apply Himp in Hf. congruence.
Qed.

Lemma score_step_other_label (acc : scores) (n : Neighbor) :
  labelled_publishable n = false -> score_step acc n = inr acc.
Proof.
  intro Hlab. unfold score_step. destruct acc as [ps cs].
  fold (labelled_publishable n). now rewrite Hlab.
Qed.

(** X9: the scoring loop passes over every neighbour whose label is
    not ["Publishable"]: it ends as it does on the publishable
    neighbours alone, with the same scores or the same exception. *)
Theorem scoring_ignores_other_labels :
  forall (neighbors : list Neighbor) (acc : scores),
    Py.for_each score_step neighbors acc
    = Py.for_each score_step (filter labelled_publishable neighbors) acc
    /\ publishable_scores_of (filter labelled_publishable neighbors)
       = publishable_scores_of neighbors
    /\ (forall conf,
          conference_scores_of conf (filter labelled_publishable neighbors)
          = conference_scores_of conf neighbors)
    /\ first_unknown_tag (filter labelled_publishable neighbors)
       = first_unknown_tag neighbors.
Proof.
  intros neighbors acc. split; [ | split; [ | split ] ].
  - revert acc. induction neighbors as [ | n neighbors IH ]; intro acc;
      [ reflexivity | ].
    cbn [filter]. destruct (labelled_publishable n) eqn:Hlab.
    + cbn [Py.for_each]. destruct (score_step acc n) as [ e | acc' ];
        cbv beta iota delta [Py.bind]; [ reflexivity | apply IH ].
    + cbn [Py.for_each]. rewrite (score_step_other_label acc _ Hlab).
      cbv beta iota delta [Py.bind]. apply IH.
  - unfold publishable_scores_of. f_equal. now apply filter_implied.
  - intro conf. unfold conference_scores_of. f_equal. apply filter_implied.
    intros n Hn. unfold tagged in Hn. now apply andb_true_iff in Hn.
  - induction neighbors as [ | n neighbors IH ]; [ reflexivity | ].
    cbn [filter]. destruct (labelled_publishable n) eqn:Hlab.
    + cbn [first_unknown_tag]. now rewrite IH.
    + cbn [first_unknown_tag]. unfold unknown_tag at 1. now rewrite Hlab.
Qed.

(** ** One paper, again *)








(** ** Metrics, again *)

Lemma calculate_metrics_inv {E : Externals} (validation_papers : list Paper)
      (self self' : PaperClassifier) (m : Metrics.t) :
  calculate_metrics validation_papers self = inr (m, self') ->
  exists results,
    classify_papers (Self.reference_papers self) validation_papers self
    = inr (results, self')
    /\ results = map (fun paper => Py.try_except (classify_one self' paper)
                                                 (error_record paper))
                     validation_papers
    /\ validation_papers <> []
    /\ m = metrics_record (counts_of validation_papers results)
                          (Py.len validation_papers).
Proof.
  unfold calculate_metrics.
  destruct (classify_papers (Self.reference_papers self) validation_papers self)
    as [ e | [results indexed] ] eqn:Hclass;
    cbv beta iota delta [Py.bind]; [ discriminate | ].
  rewrite metrics_of_spec. fold (counts_of validation_papers results).
  destruct (Py.len validation_papers =? 0)%Z eqn:Hlen; [ discriminate | ].
  unfold Py.ret. intro H. injection H as <- <-.
  exists results. split; [ reflexivity | ].
  apply classify_papers_inv in Hclass. destruct Hclass as [_ Hres].
  split; [ exact Hres | split; [ | reflexivity ] ].
  intros ->. discriminate Hlen.
Qed.

Lemma tally_partition (pairs : list (Paper * Result.t)) :
  (Confusion.TP pairs + Confusion.FP pairs
   + Confusion.TN pairs + Confusion.FN pairs)%Z = Py.len pairs.
Proof.
  unfold Confusion.TP, Confusion.FP, Confusion.TN, Confusion.FN.
  induction pairs as [ | [p r] pairs IH ].
  - reflexivity.
  - rewrite !tally_cons.
    replace (Py.len ((p, r) :: pairs)) with (1 + Py.len pairs)%Z
      by (unfold Py.len; simpl List.length; lia).
    rewrite <- IH.
    destruct (Confusion.predicted r), (Confusion.actual p); cbn [andb negb]; lia.
Qed.

Lemma tally_le (f g : Paper -> Result.t -> bool)
      (pairs : list (Paper * Result.t)) :
  (forall p r, f p r = true -> g p r = true) ->
  (Confusion.tally f pairs <= Confusion.tally g pairs)%Z.
Proof.
  intro Himp. induction pairs as [ | [p r] pairs IH ].
  - unfold Confusion.tally, Py.len. simpl. lia.
  - rewrite !tally_cons. specialize (Himp p r).
    destruct (f p r), (g p r); try lia.
    all: discriminate (Himp eq_refl).
Qed.

Lemma tally_actual (pairs : list (Paper * Result.t)) :
  Confusion.totalActuallyPublishable pairs
  = (Confusion.TP pairs + Confusion.FN pairs)%Z.
Proof.
  unfold Confusion.totalActuallyPublishable, Confusion.TP, Confusion.FN.
  induction pairs as [ | [p r] pairs IH ].
  - reflexivity.
  - rewrite !tally_cons, IH.
    destruct (Confusion.predicted r), (Confusion.actual p); cbn [andb negb]; lia.
Qed.

Lemma combine_results_length {E : Externals} (self : PaperClassifier)
      (papers : list Paper) :
  Py.len (combine papers
            (map (fun paper => Py.try_except (classify_one self paper)
                                             (error_record paper)) papers))
  = Py.len papers.
Proof.
  unfold Py.len. rewrite length_combine, length_map, Nat.min_id. reflexivity.
Qed.

(** X12: in the dictionary [calculate_metrics] returns, the four
    confusion counts are not negative and add up to [total_papers],
    which is the number of validation papers: every validation paper
    is counted once, the papers whose classification raised among
    them. *)
Theorem confusion_counts_partition :
  forall (E : Externals) (validation_papers : list Paper)
         (self self' : PaperClassifier) (m : Metrics.t),
    calculate_metrics validation_papers self = inr (m, self') ->
    let d := Metrics.metrics_detail m in
    (0 <= Metrics.true_positives d)%Z
    /\ (0 <= Metrics.false_positives d)%Z
    /\ (0 <= Metrics.true_negatives d)%Z
    /\ (0 <= Metrics.false_negatives d)%Z
    /\ (Metrics.true_positives d + Metrics.false_positives d
        + Metrics.true_negatives d + Metrics.false_negatives d)%Z
       = Metrics.total_papers d
    /\ Metrics.total_papers d = Py.len validation_papers
    /\ (0 < Metrics.total_papers d)%Z.
Proof.
  intros E validation_papers self self' m Hrun d.
  destruct (calculate_metrics_inv _ _ Hrun) as [results [_ [Hres [Hne Hm]]]].
  subst d m. rewrite counts_of_spec. cbv zeta. unfold metrics_record.
  cbn [Metrics.metrics_detail Metrics.true_positives Metrics.false_positives
       Metrics.true_negatives Metrics.false_negatives Metrics.total_papers
       true_positives false_positives true_negatives false_negatives].
  set (pairs := combine validation_papers results).
  assert (Py.len pairs = Py.len validation_papers) as Hpairs
    by (unfold pairs; rewrite Hres; apply combine_results_length).
  split; [ apply tally_nonneg | ].
  split; [ apply tally_nonneg | ].
  split; [ apply tally_nonneg | ].
  split; [ apply tally_nonneg | ].
  split; [ now rewrite tally_partition | ].
  split; [ reflexivity | ].
  unfold Py.len. destruct validation_papers; [ congruence | simpl; lia ].
Qed.

Lemma confusion_counts_partition_witness :
  exists m self',
    calculate_metrics Demo.references
                      (Demo.self Demo.span_a Demo.span_b Demo.references)
    = inr (m, self')
    /\ Metrics.total_papers (Metrics.metrics_detail m) = 5%Z.
Proof.
  destruct (calculate_metrics Demo.references
              (Demo.self Demo.span_a Demo.span_b Demo.references))
    as [ e | [m self'] ] eqn:Hrun; [ vm_compute in Hrun; discriminate | ].
  exists m, self'. split; [ reflexivity | ].
  exact (proj1 (proj2 (proj2 (proj2 (proj2 (proj2
    (@confusion_counts_partition _ _ _ _ _ Hrun))))))).
Defined.

Lemma inject_Z_pos (b : Z) : (0 < b)%Z -> (0 < inject_Z b)%Q.
Proof. intro H. change 0%Q with (inject_Z 0). now rewrite <- Zlt_Qlt. Qed.

Lemma guarded_fraction (a b : Z) :
  (0 <= a <= b)%Z ->
  (0 <= (if (b >? 0)%Z then inject_Z a / inject_Z b else 0)
   /\ (if (b >? 0)%Z then inject_Z a / inject_Z b else 0) <= 1)%Q.
Proof.
  intros [Ha Hb]. destruct (b >? 0)%Z eqn:Hg; [ | split; discriminate ].
  assert (0 < b)%Z as Hpos by lia. apply inject_Z_pos in Hpos.
  split.
  - apply Qle_shift_div_l; [ exact Hpos | ].
    rewrite Qmult_0_l. change 0%Q with (inject_Z 0). rewrite <- Zle_Qle. lia.
  - apply Qle_shift_div_r; [ exact Hpos | ].
    rewrite Qmult_1_l. rewrite <- Zle_Qle. lia.
Qed.

Lemma guarded_fraction_mono (a a' b : Z) :
  (a <= a')%Z ->
  ((if (b >? 0)%Z then inject_Z a / inject_Z b else 0)
   <= (if (b >? 0)%Z then inject_Z a' / inject_Z b else 0))%Q.
Proof.
  intro Ha. destruct (b >? 0)%Z eqn:Hg; [ | apply Qle_refl ].
  assert (0 < b)%Z as Hpos by lia. apply inject_Z_pos in Hpos.
  apply Qle_shift_div_r; [ exact Hpos | ].
  unfold Qdiv. rewrite <- Qmult_assoc, (Qmult_comm (/ _)), Qmult_inv_r.
  - rewrite Qmult_1_r. rewrite <- Zle_Qle. exact Ha.
  - intro Hz. rewrite Hz in Hpos. revert Hpos. apply Qlt_irrefl.
Qed.

Lemma guarded_fraction_zero (a b : Z) :
  (0 <= a <= b)%Z ->
  ((if (b >? 0)%Z then inject_Z a / inject_Z b else 0) == 0)%Q <-> a = 0%Z.
Proof.
  intros [Ha Hb]. destruct (b >? 0)%Z eqn:Hg.
  - assert (0 < b)%Z as Hpos by lia. apply inject_Z_pos in Hpos. split.
    + intro Hz. destruct (Z.eq_dec a 0) as [ | Hne ]; [ assumption | exfalso ].
      assert (0 < inject_Z a / inject_Z b)%Q as Hlt.
      { apply Qlt_shift_div_l; [ exact Hpos | ].
        rewrite Qmult_0_l. apply inject_Z_pos. lia. }
      rewrite Hz in Hlt. revert Hlt. apply Qlt_irrefl.
    + intros ->. unfold Qdiv. apply Qmult_0_l.
  - split; [ intros _; lia | reflexivity ].
Qed.

Lemma f1_range (p r : Q) :
  (0 <= p <= 1)%Q -> (0 <= r <= 1)%Q ->
  (0 <= f1_of p r <= 1)%Q.
Proof.
  intros [Hp0 Hp1] [Hr0 Hr1]. unfold f1_of.
  destruct (Py.gt (p + r) 0) eqn:Hgt; [ | split; discriminate ].
  apply gt_spec in Hgt. split.
  - apply Qle_shift_div_l; [ exact Hgt | ]. nra.
  - apply Qle_shift_div_r; [ exact Hgt | ]. nra.
Qed.

Lemma f1_zero (p r : Q) :
  (0 <= p)%Q -> (0 <= r)%Q ->
  (f1_of p r == 0)%Q <-> (p == 0)%Q \/ (r == 0)%Q.
Proof.
  intros Hp Hr. unfold f1_of.
  destruct (Py.gt (p + r) 0) eqn:Hgt.
  - apply gt_spec in Hgt. split.
    + intro Hz.
      destruct (Qeq_dec p 0) as [ | Hp0 ]; [ now left | ].
      destruct (Qeq_dec r 0) as [ | Hr0 ]; [ now right | exfalso ].
      assert (0 < p)%Q as Hp' by (apply Qle_lteq in Hp; destruct Hp as [ | Hp ];
                                   [ assumption | now symmetry in Hp ]).
      assert (0 < r)%Q as Hr' by (apply Qle_lteq in Hr; destruct Hr as [ | Hr ];
                                   [ assumption | now symmetry in Hr ]).
      assert (0 < 2 * (p * r) / (p + r))%Q as Hlt.
      { apply Qlt_shift_div_l; [ exact Hgt | ]. nra. }
      rewrite Hz in Hlt. revert Hlt. apply Qlt_irrefl.
    + intros [Hz | Hz]; rewrite Hz; unfold Qdiv.
      * rewrite Qmult_0_l, Qmult_0_r. apply Qmult_0_l.
      * rewrite Qmult_0_r, Qmult_0_r. apply Qmult_0_l.
  - apply gt_false_spec in Hgt. split; [ intros _ | reflexivity ].
    left. lra.
Qed.

(** The ranges of the metrics built from the tallies of a list of
    (paper, result) pairs. *)
Lemma metrics_record_fractions (pairs : list (Paper * Result.t)) (total : Z) :
  Py.len pairs = total -> (0 < total)%Z ->
  let m := metrics_record
             {| true_positives := Confusion.TP pairs;
                false_positives := Confusion.FP pairs;
                true_negatives := Confusion.TN pairs;
                false_negatives := Confusion.FN pairs;
                conference_correct := Confusion.conferenceCorrect pairs;
                total_publishable := Confusion.totalActuallyPublishable pairs |}
             total in
  (0 <= Metrics.accuracy m <= 1)%Q
  /\ (0 <= Metrics.precision m <= 1)%Q
  /\ (0 <= Metrics.recall m <= 1)%Q
  /\ (0 <= Metrics.f1_score m <= 1)%Q
  /\ (0 <= Metrics.conference_accuracy m <= 1)%Q
  /\ (Metrics.conference_accuracy m <= Metrics.recall m)%Q
  /\ ((Metrics.f1_score m == 0)%Q
      <-> Metrics.true_positives (Metrics.metrics_detail m) = 0%Z).
Proof.
  intros Hpairs Hlen. cbv zeta.
  pose proof (tally_partition pairs) as Hsum. rewrite Hpairs in Hsum.
  pose proof (tally_actual pairs) as Hact.
  assert (0 <= Confusion.TP pairs)%Z as Htp by apply tally_nonneg.
  assert (0 <= Confusion.FP pairs)%Z as Hfp by apply tally_nonneg.
  assert (0 <= Confusion.TN pairs)%Z as Htn by apply tally_nonneg.
  assert (0 <= Confusion.FN pairs)%Z as Hfn by apply tally_nonneg.
  assert (0 <= Confusion.conferenceCorrect pairs <= Confusion.TP pairs)%Z as Hcc.
  { split; [ apply tally_nonneg | ].
    apply tally_le. intros p r H. now apply andb_true_iff in H. }
  unfold metrics_record.
  cbn [Metrics.accuracy Metrics.precision Metrics.recall Metrics.f1_score
       Metrics.conference_accuracy Metrics.metrics_detail
       Metrics.true_positives true_positives false_positives true_negatives
       false_negatives conference_correct total_publishable].
  rewrite Hact.
  pose proof (@guarded_fraction (Confusion.TP pairs)
                (Confusion.TP pairs + Confusion.FP pairs) ltac:(lia)) as Hp.
  pose proof (@guarded_fraction (Confusion.TP pairs)
                (Confusion.TP pairs + Confusion.FN pairs) ltac:(lia)) as Hr.
  pose proof (@guarded_fraction (Confusion.conferenceCorrect pairs)
                (Confusion.TP pairs + Confusion.FN pairs) ltac:(lia)) as Hc.
  split.
  { pose proof (@guarded_fraction (Confusion.TP pairs + Confusion.TN pairs)
                  total ltac:(lia)) as Ha.
    replace (total >? 0)%Z with true in Ha
      by (symmetry; apply Z.gtb_lt; lia).
    exact Ha. }
  split; [ exact Hp | ].
  split; [ exact Hr | ].
  split; [ now apply f1_range | ].
  split; [ exact Hc | ].
  split; [ apply guarded_fraction_mono; lia | ].
  rewrite f1_zero by (apply Hp || apply Hr).
  rewrite !guarded_fraction_zero by lia. tauto.
Qed.

Lemma calculate_metrics_fractions {E : Externals}
      (validation_papers : list Paper) (self self' : PaperClassifier)
      (m : Metrics.t) :
  calculate_metrics validation_papers self = inr (m, self') ->
  (0 <= Metrics.accuracy m <= 1)%Q
  /\ (0 <= Metrics.f1_score m <= 1)%Q
  /\ (0 <= Metrics.conference_accuracy m <= 1)%Q.
Proof.
  intro Hrun.
  destruct (calculate_metrics_inv _ _ Hrun) as [results [_ [Hres [Hne Hm]]]].
  subst m. rewrite counts_of_spec. cbv zeta.
  set (pairs := combine validation_papers results).
  assert (Py.len pairs = Py.len validation_papers) as Hpairs
    by (unfold pairs; rewrite Hres; apply combine_results_length).
  assert (0 < Py.len validation_papers)%Z as Hlen.
  { unfold Py.len. destruct validation_papers; [ congruence | simpl; lia ]. }
  destruct (metrics_record_fractions pairs Hpairs Hlen)
    as [Ha [_ [_ [Hf [Hc _]]]]].
  auto.
Qed.

(** X13: every metric [calculate_metrics] returns lies between 0 and
    1; the conference accuracy is at most the recall; and the F1 score
    is 0 exactly when no paper is a true positive. *)
Theorem metrics_are_fractions :
  forall (E : Externals) (validation_papers : list Paper)
         (self self' : PaperClassifier) (m : Metrics.t),
    calculate_metrics validation_papers self = inr (m, self') ->
    (0 <= Metrics.accuracy m <= 1)%Q
    /\ (0 <= Metrics.precision m <= 1)%Q
    /\ (0 <= Metrics.recall m <= 1)%Q
    /\ (0 <= Metrics.f1_score m <= 1)%Q
    /\ (0 <= Metrics.conference_accuracy m <= 1)%Q
    /\ (Metrics.conference_accuracy m <= Metrics.recall m)%Q
    /\ ((Metrics.f1_score m == 0)%Q
        <-> Metrics.true_positives (Metrics.metrics_detail m) = 0%Z).
Proof.
  intros E validation_papers self self' m Hrun.
  destruct (calculate_metrics_inv _ _ Hrun) as [results [_ [Hres [Hne Hm]]]].
  subst m. rewrite counts_of_spec. cbv zeta.
  set (pairs := combine validation_papers results).
  assert (Py.len pairs = Py.len validation_papers) as Hpairs
    by (unfold pairs; rewrite Hres; apply combine_results_length).
  assert (0 < Py.len validation_papers)%Z as Hlen.
  { unfold Py.len. destruct validation_papers; [ congruence | simpl; lia ]. }
  exact (metrics_record_fractions pairs Hpairs Hlen).
Qed.

Lemma metrics_are_fractions_witness :
  exists m self',
    calculate_metrics Demo.references
                      (Demo.self Demo.span_a Demo.span_b Demo.references)
    = inr (m, self')
    /\ (0 <= Metrics.accuracy m <= 1)%Q.
Proof.
  destruct (calculate_metrics Demo.references
              (Demo.self Demo.span_a Demo.span_b Demo.references))
    as [ e | [m self'] ] eqn:Hrun; [ vm_compute in Hrun; discriminate | ].
  exists m, self'. split; [ reflexivity | ].
  exact (proj1 (@metrics_are_fractions _ _ _ _ _ Hrun)).
Defined.

Lemma tally_of_map (f : Paper -> Result.t -> bool) (g : Paper -> Result.t)
      (papers : list Paper) :
  Confusion.tally f (combine papers (map g papers))
  = Py.len (filter (fun p => f p (g p)) papers).
Proof.
  induction papers as [ | p papers IH ]; [ reflexivity | ].
  simpl combine. rewrite tally_cons, IH. unfold Py.len. simpl filter.
  destruct (f p (g p)); simpl List.length; lia.
Qed.

Lemma tally_of_failures {E : Externals} (self : PaperClassifier)
      (f : Paper -> Result.t -> bool) (h : Paper -> bool)
      (papers : list Paper) :
  (forall paper, In paper papers -> exists e, classify_one self paper = inl e) ->
  (forall paper r, Confusion.predicted r = false -> f paper r = h paper) ->
  Confusion.tally f
    (combine papers
       (map (fun paper => Py.try_except (classify_one self paper)
                                        (error_record paper)) papers))
  = Py.len (filter h papers).
Proof.
  intros Hfail Hf. rewrite tally_of_map. f_equal. apply filter_ext_in.
  intros paper Hin. apply Hf.
  destruct (Hfail paper Hin) as [e ->]. reflexivity.
Qed.

(** X14: a paper whose classification raises counts as predicted not
    publishable.  When every validation paper fails,
    [calculate_metrics] still returns: there is no true and no false
    positive, the papers labelled ["Publishable"] are the false
    negatives and the others the true negatives; precision, recall,
    F1 and conference accuracy are 0, and the accuracy is the share of
    the papers not labelled ["Publishable"]. *)
Theorem failed_papers_count_as_negatives :
  forall (E : Externals) (validation_papers : list Paper)
         (self self' : PaperClassifier) (m : Metrics.t),
    calculate_metrics validation_papers self = inr (m, self') ->
    (forall paper, In paper validation_papers ->
       exists e, classify_one self' paper = inl e) ->
    let d := Metrics.metrics_detail m in
    let labelled := filter Confusion.actual validation_papers in
    let others := filter (fun p => negb (Confusion.actual p)) validation_papers in
    Metrics.true_positives d = 0%Z
    /\ Metrics.false_positives d = 0%Z
    /\ Metrics.false_negatives d = Py.len labelled
    /\ Metrics.true_negatives d = Py.len others
    /\ Metrics.precision m = 0%Q
    /\ (Metrics.recall m == 0)%Q
    /\ (Metrics.f1_score m == 0)%Q
    /\ (Metrics.conference_accuracy m == 0)%Q
    /\ Metrics.accuracy m
       = (inject_Z (Py.len others) / inject_Z (Py.len validation_papers))%Q.
Proof.
  intros E validation_papers self self' m Hrun Hfail d labelled others.
  destruct (calculate_metrics_inv _ _ Hrun) as [results [_ [Hres [Hne Hm]]]].
  subst d m results. rewrite counts_of_spec. cbv zeta.
  set (pairs := combine validation_papers _).
  assert (Confusion.TP pairs = 0%Z) as Htp.
  { unfold Confusion.TP, pairs.
    rewrite (@tally_of_failures _ self' _ (fun _ => false) validation_papers Hfail).
    - unfold Py.len. now rewrite filter_false.
    - now intros p r ->. }
  assert (Confusion.FP pairs = 0%Z) as Hfp.
  { unfold Confusion.FP, pairs.
    rewrite (@tally_of_failures _ self' _ (fun _ => false) validation_papers Hfail).
    - unfold Py.len. now rewrite filter_false.
    - now intros p r ->. }
  assert (Confusion.FN pairs = Py.len labelled) as Hfn.
  { unfold Confusion.FN, pairs.
    apply (@tally_of_failures _ self' _ Confusion.actual validation_papers Hfail).
    now intros p r ->. }
  assert (Confusion.TN pairs = Py.len others) as Htn.
  { unfold Confusion.TN, pairs.
    apply (@tally_of_failures _ self' _ (fun p => negb (Confusion.actual p))
             validation_papers Hfail).
    now intros p r ->. }
  assert (Confusion.conferenceCorrect pairs = 0%Z) as Hcc.
  { unfold Confusion.conferenceCorrect, pairs.
    rewrite (@tally_of_failures _ self' _ (fun _ => false) validation_papers Hfail).
    - unfold Py.len. now rewrite filter_false.
    - now intros p r ->. }
  unfold metrics_record.
  cbn [Metrics.accuracy Metrics.precision Metrics.recall Metrics.f1_score
       Metrics.conference_accuracy Metrics.metrics_detail
       Metrics.true_positives Metrics.false_positives Metrics.true_negatives
       Metrics.false_negatives true_positives false_positives true_negatives
       false_negatives conference_correct total_publishable].
  rewrite Htp, Hfp, Hfn, Htn, Hcc. cbn [Z.add Z.gtb Z.compare].
  assert (forall b : Z,
             ((if (b >? 0)%Z then inject_Z 0 / inject_Z b else 0) == 0)%Q)
    as Hzero.
  { intro b. destruct (b >? 0)%Z; [ | reflexivity ].
    unfold Qdiv. apply Qmult_0_l. }
  split; [ reflexivity | ].
  split; [ reflexivity | ].
  split; [ reflexivity | ].
  split; [ reflexivity | ].
  split; [ reflexivity | ].
  split; [ apply Hzero | ].
  split; [ apply f1_zero; [ apply Qle_refl | | now left ] | ].
  - pose proof (@guarded_fraction 0 (Py.len labelled)) as Hr.
    apply Hr. unfold Py.len. lia.
  - split; [ apply Hzero | reflexivity ].
Qed.

Lemma failed_papers_count_as_negatives_witness :
  exists m self',
    calculate_metrics
      [Demo.paper "V1" "offline" (Some "Publishable") (Some "KDD");
       Demo.paper "V2" "offline" (Some "NonPublishable") None]
      (Demo.self Demo.span_a Demo.span_b Demo.references)
    = inr (m, self')
    /\ Metrics.false_negatives (Metrics.metrics_detail m) = 1%Z
    /\ (Metrics.recall m == 0)%Q.
Proof.
  destruct (calculate_metrics
              [Demo.paper "V1" "offline" (Some "Publishable") (Some "KDD");
               Demo.paper "V2" "offline" (Some "NonPublishable") None]
              (Demo.self Demo.span_a Demo.span_b Demo.references))
    as [ e | [m self'] ] eqn:Hrun; [ vm_compute in Hrun; discriminate | ].
  exists m, self'. split; [ reflexivity | ].
  assert (forall paper,
             In paper
                [Demo.paper "V1" "offline" (Some "Publishable") (Some "KDD");
                 Demo.paper "V2" "offline" (Some "NonPublishable") None] ->
             exists e, classify_one self' paper = inl e) as Hfail.
  { intros paper [<- | [<- | []]]; eexists; reflexivity. }
  destruct (@failed_papers_count_as_negatives _ _ _ _ _ Hrun Hfail)
    as [_ [_ [Hfn [_ [_ [Hrec _]]]]]].
  split; [ exact Hfn | exact Hrec ].
Defined.

(** ** Cross-validation, again *)

Lemma index_keeps_reference_papers {E : Externals} (refs : list Paper)
      (self self' : PaperClassifier) :
  _index_reference_papers refs self = inr (tt, self') ->
  Self.reference_papers self' = Self.reference_papers self.
Proof.
  unfold _index_reference_papers.
  destruct (add_documents (Self.vector_server self) (map document_of refs));
    simpl; [ discriminate | ].
  intro H. injection H as <-. reflexivity.
Qed.

Lemma calculate_metrics_keeps_reference_papers {E : Externals}
      (validation_papers : list Paper) (self self' : PaperClassifier)
      (m : Metrics.t) :
  calculate_metrics validation_papers self = inr (m, self') ->
  Self.reference_papers self' = Self.reference_papers self.
Proof.
  intro Hrun.
  apply calculate_metrics_inv in Hrun. destruct Hrun as [results [Hclass _]].
  apply classify_papers_inv in Hclass. destruct Hclass as [Hindex _].
  now apply index_keeps_reference_papers in Hindex.
Qed.

Lemma take_inv {A} (l : list A) (idx : list nat) (r : list A) :
  Py.take l idx = inr r -> List.length r = List.length idx.
Proof.
  revert r. induction idx as [ | i idx IH ]; intro r; simpl.
  - intro H. injection H as <-. reflexivity.
  - destruct (nth_error l i); [ | discriminate ].
    destruct (Py.take l idx) as [ e | r' ]; simpl; [ discriminate | ].
    intro H. injection H as <-. simpl. f_equal. now apply IH.
Qed.

Lemma fold_step_inv {E : Externals} (refs : list Paper)
      (metrics_list metrics_list' : list Metrics.t)
      (self self' : PaperClassifier) (fold : list nat * list nat) :
  fold_step refs (metrics_list, self) fold = inr (metrics_list', self') ->
  exists metrics,
    metrics_list' = (metrics_list ++ [metrics])%list
    /\ fold_done refs fold metrics self'.
Proof.
  destruct fold as [train_idx val_idx]. unfold fold_step.
  destruct (Py.take refs train_idx) as [ e | train_papers ] eqn:Htrain;
    cbv beta iota delta [Py.bind]; [ discriminate | ].
  destruct (Py.take refs val_idx) as [ e | val_papers ] eqn:Hval;
    [ discriminate | ].
  match goal with
  | |- context [calculate_metrics val_papers ?s] => set (before := s)
  end.
  destruct (calculate_metrics val_papers before) as [ e | [metrics after] ]
    eqn:Hrun; [ discriminate | ].
  unfold Py.ret. intro H. injection H as <- <-.
  exists metrics. split; [ reflexivity | ].
  exists train_papers, val_papers, before. repeat split; auto.
  apply calculate_metrics_keeps_reference_papers in Hrun. exact Hrun.
Qed.

Lemma fold_loop_inv {E : Externals} (refs : list Paper)
      (folds : list (list nat * list nat)) :
  forall (metrics_list metrics_list' : list Metrics.t)
         (self self' : PaperClassifier),
    Py.for_each (fold_step refs) folds (metrics_list, self)
    = inr (metrics_list', self') ->
    exists more,
      metrics_list' = (metrics_list ++ more)%list
      /\ Forall2 (fun fold metrics =>
                    exists after, fold_done refs fold metrics after)
                 folds more
      /\ (forall earlier fold, folds = (earlier ++ [fold])%list ->
            exists metrics, fold_done refs fold metrics self').
Proof.
  induction folds as [ | fold0 folds IH ];
    intros metrics_list metrics_list' self self'; cbn [Py.for_each].
  - unfold Py.ret. intro Hrun. injection Hrun as <- <-.
    exists []. rewrite app_nil_r.
    split; [ reflexivity | split; [ constructor | ] ].
    intros earlier fold H. destruct earlier; discriminate.
  - destruct (fold_step refs (metrics_list, self) fold0)
      as [ e | [ml1 self1] ] eqn:Hstep; cbv beta iota delta [Py.bind];
      [ discriminate | ].
    intro Hrun.
    apply fold_step_inv in Hstep. destruct Hstep as [metrics [-> Hdone]].
    pose proof Hrun as Hrest. apply IH in Hrest.
    destruct Hrest as [more [-> [Hall Hlast]]].
    exists (metrics :: more). rewrite <- app_assoc.
    split; [ reflexivity | split ].
    + constructor; [ now exists self1 | exact Hall ].
    + intros earlier fold Heq.
      destruct earlier as [ | f earlier ]; simpl in Heq.
      * injection Heq as Hfold Hfolds. subst fold0 folds.
        cbn [Py.for_each] in Hrun. unfold Py.ret in Hrun.
        injection Hrun as _ <-. now exists metrics.
      * injection Heq as _ Hfolds. now apply (Hlast earlier).
Qed.

Lemma KFold_split_inv {E : Externals} (k : Z) (n : nat)
      (folds : list (list nat * list nat)) :
  KFold_split k n = inr folds ->
  (2 <= k <= Z.of_nat n)%Z
  /\ folds = map (train_test n)
                 (runs (fold_sizes (Z.to_nat k) n) (shuffle n))
  /\ List.length folds = Z.to_nat k.
Proof.
  unfold KFold_split.
  destruct (k <=? 1)%Z eqn:Hk; [ discriminate | ].
  destruct (Z.of_nat n <? k)%Z eqn:Hn; [ discriminate | ].
  apply Z.leb_gt in Hk. apply Z.ltb_ge in Hn.
  unfold Py.ret. intro H. injection H as <-.
  split; [ lia | split; [ reflexivity | ] ].
  now rewrite length_map, runs_length, fold_sizes_length.
Qed.

Lemma cross_validate_inv {E : Externals} (k : Z) (self self' : PaperClassifier)
      (cv : CV.t) :
  cross_validate k self = inr (cv, self') ->
  exists folds,
    KFold_split k (List.length (Self.reference_papers self)) = inr folds
    /\ Py.for_each (fold_step (Self.reference_papers self)) folds ([], self)
       = inr (CV.fold_metrics cv, self')
    /\ CV.average_metrics cv
       = {| CV.accuracy :=
              Py.np_mean (map Metrics.accuracy (CV.fold_metrics cv));
            CV.f1_score :=
              Py.np_mean (map Metrics.f1_score (CV.fold_metrics cv));
            CV.conference_accuracy :=
              Py.np_mean (map Metrics.conference_accuracy
                              (CV.fold_metrics cv)) |}.
Proof.
  unfold cross_validate.
  destruct (KFold_split k (List.length (Self.reference_papers self)))
    as [ e | folds ]; cbv beta iota delta [Py.bind]; [ discriminate | ].
  destruct (Py.for_each (fold_step (Self.reference_papers self)) folds
                        ([], self)) as [ e | [metrics_list after] ] eqn:Hloop;
    [ discriminate | ].
  unfold Py.ret. intro H. injection H as <- <-.
  exists folds. split; [ reflexivity | split; [ exact Hloop | reflexivity ] ].
Qed.

Lemma partition_length {A} (f : A -> bool) (l : list A) :
  (List.length (filter (fun x => negb (f x)) l) + List.length (filter f l)
   = List.length l)%nat.
Proof.
  induction l as [ | x l IH ]; simpl; [ reflexivity | ].
  destruct (f x); simpl; lia.
Qed.

(** X15: when [cross_validate] returns, [self.reference_papers] is no
    longer the list it started from: it is the training part of the
    last fold, which lacks the papers of that fold's validation part,
    at least one. *)
Theorem cross_validate_replaces_reference_papers :
  forall (E : Externals) (k_folds : Z) (self self' : PaperClassifier)
         (cv : CV.t),
    cross_validate k_folds self = inr (cv, self') ->
    let reference_papers := Self.reference_papers self in
    exists earlier train_idx val_idx,
      KFold_split k_folds (List.length reference_papers)
      = inr (earlier ++ [(train_idx, val_idx)])%list
      /\ Py.take reference_papers train_idx
         = inr (Self.reference_papers self')
      /\ val_idx <> []
      /\ (List.length (Self.reference_papers self') + List.length val_idx
          = List.length reference_papers)%nat
      /\ (List.length (Self.reference_papers self')
          < List.length reference_papers)%nat.
Proof.
  intros E k self self' cv Hrun refs.
  apply cross_validate_inv in Hrun. destruct Hrun as [folds [Hsplit [Hloop _]]].
  fold refs in Hsplit, Hloop.
  pose proof Hsplit as Hinv. apply KFold_split_inv in Hinv.
  destruct Hinv as [Hk [Hfolds Hlen]].
  destruct (@exists_last _ folds) as [earlier [[train_idx val_idx] Hlast]].
  { intros ->. simpl in Hlen. lia. }
  apply fold_loop_inv in Hloop. destruct Hloop as [more [_ [_ Hdone]]].
  destruct (Hdone _ _ Hlast)
    as [metrics [train_papers [val_papers [before
          [Htrain [Hval [_ [Hcalc Hrefs]]]]]]]].
  simpl in Htrain, Hval.
  assert (val_idx <> []) as Hne.
  { intros ->. simpl in Hval. injection Hval as <-.
    apply calculate_metrics_inv in Hcalc.
    destruct Hcalc as [_ [_ [_ [Habs _]]]]. now apply Habs. }
  assert (List.length train_idx + List.length val_idx = List.length refs)%nat
    as Hpart.
  { assert (In (train_idx, val_idx) folds) as Hin
      by (rewrite Hlast; apply in_or_app; right; now left).
    rewrite Hfolds in Hin. apply in_map_iff in Hin.
    destruct Hin as [test [Heq _]]. unfold train_test in Heq.
    injection Heq as <- <-. rewrite partition_length. apply length_seq. }
  exists earlier, train_idx, val_idx.
  split; [ now rewrite <- Hlast | ].
  split; [ now rewrite Hrefs | ].
  split; [ exact Hne | ].
  apply take_inv in Htrain. rewrite Hrefs, Htrain.
  split; [ exact Hpart | ].
  destruct val_idx; [ congruence | simpl in Hpart; lia ].
Qed.

Lemma cross_validate_replaces_reference_papers_witness :
  exists cv self',
    cross_validate 2 (Demo.self Demo.span_a Demo.span_b Demo.references)
    = inr (cv, self')
    /\ (List.length (Self.reference_papers self')
        < List.length Demo.references)%nat.
Proof.
  destruct (cross_validate 2
              (Demo.self Demo.span_a Demo.span_b Demo.references))
    as [ e | [cv self'] ] eqn:Hrun; [ vm_compute in Hrun; discriminate | ].
  exists cv, self'. split; [ reflexivity | ].
  destruct (@cross_validate_replaces_reference_papers _ _ _ _ _ Hrun)
    as [earlier [train_idx [val_idx [_ [_ [_ [_ Hlt]]]]]]].
  exact Hlt.
Defined.

Lemma fsum_range (l : list Q) :
  forall a : Q,
    Forall (fun x => 0 <= x <= 1)%Q l ->
    (a <= fold_left Qplus l a
     /\ fold_left Qplus l a <= a + inject_Z (Z.of_nat (List.length l)))%Q.
Proof.
  induction l as [ | x l IH ]; intros a Hall; simpl fold_left.
  - simpl. split; [ apply Qle_refl | ]. rewrite Qplus_0_r. apply Qle_refl.
  - inversion Hall as [ | ? ? [Hx0 Hx1] Hrest ]; subst.
    destruct (IH (a + x)%Q Hrest) as [Hlo Hhi].
    replace (Z.of_nat (List.length (x :: l)))
      with (1 + Z.of_nat (List.length l))%Z by (simpl List.length; lia).
    rewrite inject_Z_plus. change (inject_Z 1) with 1%Q.
    set (n := inject_Z (Z.of_nat (List.length l))) in *.
    set (total := fold_left Qplus l (a + x)%Q) in *.
    split; lra.
Qed.

Lemma np_mean_range (l : list Q) :
  l <> [] -> Forall (fun x => 0 <= x <= 1)%Q l ->
  (0 <= Py.np_mean l <= 1)%Q.
Proof.
  intros Hne Hall. unfold Py.np_mean, Py.fsum, Py.int_to_float, Py.len.
  destruct (fsum_range 0 Hall) as [Hlo Hhi].
  assert (0 < inject_Z (Z.of_nat (List.length l)))%Q as Hpos.
  { apply inject_Z_pos. destruct l; [ congruence | simpl; lia ]. }
  split.
  - apply Qle_shift_div_l; [ exact Hpos | ]. lra.
  - apply Qle_shift_div_r; [ exact Hpos | ]. lra.
Qed.

(** X16: the three averaged metrics [cross_validate] returns lie
    between 0 and 1, as every metric of every fold record does, and
    there are at least two fold records. *)
Theorem averaged_metrics_are_fractions :
  forall (E : Externals) (k_folds : Z) (self self' : PaperClassifier)
         (cv : CV.t),
    cross_validate k_folds self = inr (cv, self') ->
    (2 <= Py.len (CV.fold_metrics cv))%Z
    /\ Forall (fun m => (0 <= Metrics.accuracy m <= 1)%Q
                        /\ (0 <= Metrics.f1_score m <= 1)%Q
                        /\ (0 <= Metrics.conference_accuracy m <= 1)%Q)
              (CV.fold_metrics cv)
    /\ (0 <= CV.accuracy (CV.average_metrics cv) <= 1)%Q
    /\ (0 <= CV.f1_score (CV.average_metrics cv) <= 1)%Q
    /\ (0 <= CV.conference_accuracy (CV.average_metrics cv) <= 1)%Q.
Proof.
  intros E k self self' cv Hrun.
  apply cross_validate_inv in Hrun.
  destruct Hrun as [folds [Hsplit [Hloop Havg]]].
  apply KFold_split_inv in Hsplit. destruct Hsplit as [Hk [_ Hlen]].
  apply fold_loop_inv in Hloop. destruct Hloop as [more [Hmore [Hall _]]].
  simpl in Hmore. rewrite Hmore, Havg in *.
  cbn [CV.accuracy CV.f1_score CV.conference_accuracy].
  assert (more <> []) as Hne.
  { apply Forall2_length in Hall. intros ->. simpl in Hall. lia. }
  assert (Forall (fun m => (0 <= Metrics.accuracy m <= 1)%Q
                           /\ (0 <= Metrics.f1_score m <= 1)%Q
                           /\ (0 <= Metrics.conference_accuracy m <= 1)%Q)
                 more) as Hranges.
  { clear - Hall. induction Hall as [ | fold m folds more Hdone _ IH ];
      [ constructor | constructor; [ | exact IH ] ].
    destruct Hdone as [after [tp [vp [before [_ [_ [_ [Hcalc _]]]]]]]].
    now apply calculate_metrics_fractions in Hcalc. }
  split.
  { apply Forall2_length in Hall. unfold Py.len. lia. }
  split; [ exact Hranges | ].
  rewrite Forall_forall in Hranges.
  repeat split; apply np_mean_range;
    try (intro Hnil; apply map_eq_nil in Hnil; contradiction);
    apply Forall_forall; intros x Hx; apply in_map_iff in Hx;
    destruct Hx as [m [<- Hm]]; apply (Hranges m Hm).
Qed.

Lemma averaged_metrics_are_fractions_witness :
  exists cv self',
    cross_validate 5 (Demo.self Demo.span_a Demo.span_b Demo.references)
    = inr (cv, self')
    /\ (0 <= CV.accuracy (CV.average_metrics cv) <= 1)%Q.
Proof.
  destruct (cross_validate 5
              (Demo.self Demo.span_a Demo.span_b Demo.references))
    as [ e | [cv self'] ] eqn:Hrun; [ vm_compute in Hrun; discriminate | ].
  exists cv, self'. split; [ reflexivity | ].
  destruct (@averaged_metrics_are_fractions _ _ _ _ _ Hrun)
    as [_ [_ [Hacc _]]].
  exact Hacc.
Defined.

Lemma runs_lengths (sizes : list nat) :
  forall indices : list nat,
    (list_sum sizes <= List.length indices)%nat ->
    map (@List.length nat) (runs sizes indices) = sizes.
Proof.
  induction sizes as [ | s sizes IH ]; intros indices Hsum; simpl in *.
  - reflexivity.
  - rewrite length_firstn, IH by (rewrite length_skipn; lia).
    f_equal. lia.
Qed.

Lemma runs_distinct (sizes : list nat) :
  forall indices : list nat,
    NoDup indices ->
    Forall (fun run => NoDup run /\ incl run indices) (runs sizes indices).
Proof.
  induction sizes as [ | s sizes IH ]; intros indices Hnd; simpl.
  - constructor.
  - assert (NoDup (firstn s indices ++ skipn s indices)) as Hsplit
      by now rewrite firstn_skipn.
    constructor.
    + split; [ now apply NoDup_app_remove_r in Hsplit | ].
      intros x Hx. rewrite <- (firstn_skipn s indices).
      apply in_or_app. now left.
    + apply NoDup_app_remove_l in Hsplit.
      eapply Forall_impl; [ | apply (IH _ Hsplit) ].
      intros run [Hrun Hincl]. split; [ exact Hrun | ].
      intros x Hx. rewrite <- (firstn_skipn s indices).
      apply in_or_app. right. now apply Hincl.
Qed.

Lemma runs_cover (sizes : list nat) :
  forall indices : list nat,
    list_sum sizes = List.length indices ->
    forall x, In x indices -> exists run, In run (runs sizes indices) /\ In x run.
Proof.
  induction sizes as [ | s sizes IH ]; intros indices Hsum x Hx; simpl in *.
  - destruct indices; [ destruct Hx | discriminate ].
  - rewrite <- (firstn_skipn s indices) in Hx. apply in_app_or in Hx.
    destruct Hx as [Hx | Hx].
    + exists (firstn s indices). split; [ now left | exact Hx ].
    + destruct (IH (skipn s indices)) with (x := x) as [run [Hrun Hin]].
      * rewrite length_skipn. lia.
      * exact Hx.
      * exists run. split; [ now right | exact Hin ].
Qed.

Lemma mask_length (n : nat) (run : list nat) :
  NoDup run -> incl run (seq 0 n) ->
  List.length (filter (test_mask run) (seq 0 n)) = List.length run.
Proof.
  intros Hnd Hincl. apply Permutation_length. apply NoDup_Permutation.
  - apply NoDup_filter, seq_NoDup.
  - exact Hnd.
  - intro x. rewrite filter_In, test_mask_spec. split.
    + now intros [_ H].
    + intro Hx. split; [ now apply Hincl | exact Hx ].
Qed.

Lemma shuffled_folds_sizes {E : Externals} (k n : nat) :
  (0 < k)%nat ->
  Permutation (shuffle n) (seq 0 n) ->
  map (fun fold => List.length (snd fold))
      (map (train_test n) (runs (fold_sizes k n) (shuffle n)))
  = fold_sizes k n.
Proof.
  intros Hk Hperm. rewrite map_map. unfold train_test. cbn [snd].
  assert (NoDup (shuffle n)) as Hnd.
  { apply (Permutation_NoDup (Permutation_sym Hperm)). apply seq_NoDup. }
  assert (List.length (shuffle n) = n) as Hlen
    by (rewrite (Permutation_length Hperm); apply length_seq).
  transitivity (map (@List.length nat) (runs (fold_sizes k n) (shuffle n)));
    [ | apply runs_lengths; rewrite fold_sizes_sum, Hlen; lia ].
  apply map_ext_in. intros run Hrun.
  pose proof (runs_distinct (fold_sizes k n) Hnd) as Hall.
  rewrite Forall_forall in Hall. destruct (Hall run Hrun) as [Hrnd Hincl].
  apply mask_length; [ exact Hrnd | ].
  intros x Hx. apply (Permutation_in _ Hperm). now apply Hincl.
Qed.

Lemma fold_totals {E : Externals} (refs : list Paper)
      (folds : list (list nat * list nat)) (more : list Metrics.t) :
  Forall2 (fun fold metrics =>
             exists after, fold_done refs fold metrics after) folds more ->
  fold_right Z.add 0%Z
    (map (fun m => Metrics.total_papers (Metrics.metrics_detail m)) more)
  = Z.of_nat (list_sum (map (fun fold => List.length (snd fold)) folds)).
Proof.
  induction 1 as [ | fold m folds more Hdone _ IH ]; [ reflexivity | ].
  cbn [map fold_right list_sum]. rewrite IH.
  destruct Hdone as [after [tp [vp [before [_ [Hval [_ [Hcalc _]]]]]]]].
  apply take_inv in Hval. apply calculate_metrics_inv in Hcalc.
  destruct Hcalc as [results [_ [_ [_ ->]]]].
  unfold metrics_record. cbn [Metrics.metrics_detail Metrics.total_papers].
  unfold Py.len, list_sum. rewrite Hval. lia.
Qed.

(** X17: with a shuffle that permutes the indices, a run of
    [cross_validate] that returns validates every reference paper:
    each index is in the validation part of a fold, and the
    [total_papers] of the fold records add up to the number of
    reference papers, so that no paper is validated twice. *)
Theorem every_reference_paper_is_validated_once :
  forall (E : Externals) (k_folds : Z) (self self' : PaperClassifier)
         (cv : CV.t),
    let n := List.length (Self.reference_papers self) in
    cross_validate k_folds self = inr (cv, self') ->
    Permutation (shuffle n) (seq 0 n) ->
    fold_right Z.add 0%Z
      (map (fun m => Metrics.total_papers (Metrics.metrics_detail m))
           (CV.fold_metrics cv))
    = Z.of_nat n
    /\ exists folds,
         KFold_split k_folds n = inr folds
         /\ forall i, (i < n)%nat ->
              exists train_idx val_idx,
                In (train_idx, val_idx) folds /\ In i val_idx.
Proof.
  intros E k self self' cv n Hrun Hperm.
  apply cross_validate_inv in Hrun. fold n in Hrun.
  destruct Hrun as [folds [Hsplit [Hloop _]]].
  pose proof Hsplit as Hinv. apply KFold_split_inv in Hinv.
  destruct Hinv as [Hk [Hfolds _]].
  apply fold_loop_inv in Hloop. destruct Hloop as [more [Hmore [Hall _]]].
  simpl in Hmore. rewrite Hmore.
  assert (List.length (shuffle n) = n) as Hlen
    by (rewrite (Permutation_length Hperm); apply length_seq).
  split.
  - rewrite (fold_totals Hall), Hfolds.
    rewrite shuffled_folds_sizes by (lia || exact Hperm).
    rewrite fold_sizes_sum by lia. reflexivity.
  - exists folds. split; [ exact Hsplit | ].
    intros i Hi.
    assert (In i (shuffle n)) as Hin.
    { apply (Permutation_in _ (Permutation_sym Hperm)). apply in_seq. lia. }
    destruct (runs_cover (fold_sizes (Z.to_nat k) n) (shuffle n)) with (x := i)
      as [run [Hrun Hirun]].
    + rewrite fold_sizes_sum, Hlen by lia. reflexivity.
    + exact Hin.
    + exists (fst (train_test n run)), (snd (train_test n run)). split.
      * rewrite Hfolds. apply in_map_iff. exists run.
        split; [ now destruct (train_test n run) | exact Hrun ].
      * unfold train_test. cbn [snd]. apply filter_In.
        split; [ apply in_seq; lia | now apply test_mask_spec ].
Qed.

Lemma every_reference_paper_is_validated_once_witness :
  exists cv self',
    cross_validate 2 (Demo.self Demo.span_a Demo.span_b Demo.references)
    = inr (cv, self')
    /\ fold_right Z.add 0%Z
         (map (fun m => Metrics.total_papers (Metrics.metrics_detail m))
              (CV.fold_metrics cv))
       = 5%Z.
Proof.
  destruct (cross_validate 2
              (Demo.self Demo.span_a Demo.span_b Demo.references))
    as [ e | [cv self'] ] eqn:Hrun; [ vm_compute in Hrun; discriminate | ].
  exists cv, self'. split; [ reflexivity | ].
  refine (proj1 (@every_reference_paper_is_validated_once _ _ _ _ _ Hrun _)).
  simpl. apply Permutation_sym. apply (Permutation_rev [0; 1; 2; 3; 4]%nat).
Defined.

(** X18: [cross_validate] raises [ValueError] whenever the number of
    folds is at most 1 or exceeds the number of reference papers,
    whatever the external services do; so with fewer than two
    reference papers it raises for every number of folds, and with
    fewer than five for the default of 5. *)
Theorem cross_validate_rejects_fold_counts :
  forall (E : Externals) (self : PaperClassifier) (k_folds : Z),
    let n := List.length (Self.reference_papers self) in
    ((k_folds <= 1)%Z \/ (Z.of_nat n < k_folds)%Z ->
     exists msg, cross_validate k_folds self = inl (Py.ValueError msg))
    /\ ((n < 2)%nat ->
        exists msg, cross_validate k_folds self = inl (Py.ValueError msg))
    /\ ((n < 5)%nat ->
        exists msg, cross_validate 5 self = inl (Py.ValueError msg)).
Proof.
  intros E self k n.
  assert (forall k' : Z,
             (k' <= 1)%Z \/ (Z.of_nat n < k')%Z ->
             exists msg, cross_validate k' self = inl (Py.ValueError msg))
    as Hreject.
  { intros k' Hk. unfold cross_validate, KFold_split. fold n.
    destruct (k' <=? 1)%Z eqn:Hle; [ simpl; eauto | ].
    destruct (Z.of_nat n <? k')%Z eqn:Hlt; [ simpl; eauto | ].
    apply Z.leb_gt in Hle. apply Z.ltb_ge in Hlt. lia. }
  split; [ apply Hreject | split ].
  - intro Hn. apply Hreject. lia.
  - intro Hn. apply Hreject. lia.
Qed.

Lemma cross_validate_rejects_fold_counts_witness :
  exists msg,
    cross_validate 5 (Demo.self Demo.span_a Demo.span_b
                                [Demo.paper "R001" "A" (Some "Publishable")
                                            (Some "CVPR")])
    = inl (Py.ValueError msg).
Proof.
  apply (proj2 (proj2 (@cross_validate_rejects_fold_counts
                         (Demo.env Demo.span_a Demo.span_b)
                         (Demo.self Demo.span_a Demo.span_b
                            [Demo.paper "R001" "A" (Some "Publishable")
                                        (Some "CVPR")]) 5))).
  simpl. lia.
Defined.




(** ** Loading the data set *)

Example load_demo_files :
  fst (load_dataset (E := Demo.env Demo.span_a Demo.span_b)
                    (F := DemoFiles.files) "data"
                    (Demo.self Demo.span_a Demo.span_b []))
  = ([ {| content := "Vision transformers. We study them.";
          path := DemoFiles.pdf "data/Reference/Publishable/CVPR" "R006";
          is_reference := true;
          label := Some "Publishable";
          conference := Some "CVPR" |};
       {| content := "Vision transformers. We study them.";
          path := DemoFiles.pdf "data/Reference/Publishable/CVPR" "R007";
          is_reference := true;
          label := Some "Publishable";
          conference := Some "CVPR" |};
       {| content := EmptyString;
          path := DemoFiles.pdf "data/Reference/Non-Publishable" "R001";
          is_reference := true;
          label := Some "NonPublishable";
          conference := None |} ],
     [ {| content := "Vision transformers. We study them.";
          path := DemoFiles.pdf "data/Papers" "P001";
          is_reference := false;
          label := None;
          conference := None |};
       {| content := "Vision transformers. We study them.";
          path := DemoFiles.pdf "data/Papers" "P002";
          is_reference := false;
          label := None;
          conference := None |} ]).
Proof. reflexivity. Qed.

Lemma load_loop_spec {E : Externals} {F : FileSystem} (is_ref : bool)
      (lbl conf : option string) (paths : list Path) :
  forall papers : list Paper,
    fold_left (load_step is_ref lbl conf) paths papers
    = (papers
       ++ map (fun pdf_path =>
                 {| content := _extract_pdf_content pdf_path;
                    path := pdf_path;
                    is_reference := is_ref;
                    label := lbl;
                    conference := conf |}) paths)%list.
Proof.
  induction paths as [ | p paths IH ]; intro papers; simpl.
  - now rewrite app_nil_r.
  - rewrite IH. unfold load_step. now rewrite <- app_assoc.
Qed.

Lemma load_conferences_spec {E : Externals} {F : FileSystem}
      (pub_path : string) (confs : list string) :
  forall papers : list Paper,
    fold_left
      (fun reference_papers conf =>
         fold_left (load_step true (Some "Publishable") (Some conf))
                   (glob_pdf (join_path pub_path conf)) reference_papers)
      confs papers
    = (papers
       ++ flat_map
            (fun conf =>
               map (fun pdf_path =>
                      {| content := _extract_pdf_content pdf_path;
                         path := pdf_path;
                         is_reference := true;
                         label := Some "Publishable";
                         conference := Some conf |})
                   (glob_pdf (join_path pub_path conf))) confs)%list.
Proof.
  induction confs as [ | conf confs IH ]; intro papers; simpl.
  - now rewrite app_nil_r.
  - rewrite IH, load_loop_spec. now rewrite <- app_assoc.
Qed.

(** X20: the text extracted from a PDF never has white space at
    either end, and it is the empty string whenever the document
    cannot be opened or read. *)
Theorem extracted_content_is_trimmed :
  forall (F : FileSystem) (pdf_path : Path),
    Py.strip (_extract_pdf_content pdf_path) = _extract_pdf_content pdf_path
    /\ (forall e, fitz_pages pdf_path = inl e ->
          _extract_pdf_content pdf_path = EmptyString)
    /\ (forall pages, fitz_pages pdf_path = inr pages ->
          (Py.slen (_extract_pdf_content pdf_path)
           <= Py.slen (fold_left String.append pages EmptyString))%Z).
Proof.
  intros F pdf_path. unfold _extract_pdf_content.
  destruct (fitz_pages pdf_path) as [ e | pages ]; simpl.
  - split; [ reflexivity | split; [ reflexivity | discriminate ] ].
  - split; [ apply strip_idempotent | split; [ discriminate | ] ].
    intros pages' H. injection H as <-. apply strip_length.
Qed.

Lemma loaded_references_shaped {E : Externals} {F : FileSystem}
      (pub_path nonpub_path : string) (confs : list string) :
  incl confs conferences ->
  Forall reference_shaped
    (flat_map
       (fun conf =>
          map (fun pdf_path =>
                 {| content := _extract_pdf_content pdf_path;
                    path := pdf_path;
                    is_reference := true;
                    label := Some "Publishable";
                    conference := Some conf |})
              (glob_pdf (join_path pub_path conf))) confs
     ++ map (fun pdf_path =>
               {| content := _extract_pdf_content pdf_path;
                  path := pdf_path;
                  is_reference := true;
                  label := Some "NonPublishable";
                  conference := None |})
            (glob_pdf nonpub_path))%list.
Proof.
  intro Hincl. apply Forall_forall. intros paper Hin.
  apply in_app_or in Hin. destruct Hin as [Hin | Hin].
  - apply in_flat_map in Hin. destruct Hin as [conf [Hconf Hin]].
    apply in_map_iff in Hin. destruct Hin as [p [<- _]].
    split; [ reflexivity | left ]. split; [ reflexivity | ].
    exists conf. split; [ reflexivity | now apply Hincl ].
  - apply in_map_iff in Hin. destruct Hin as [p [<- _]].
    split; [ reflexivity | right ]. split; reflexivity.
Qed.

Lemma flat_map_paths {E : Externals} {F : FileSystem} (pub_path : string)
      (confs : list string) :
  map path
    (flat_map
       (fun conf =>
          map (fun pdf_path =>
                 {| content := _extract_pdf_content pdf_path;
                    path := pdf_path;
                    is_reference := true;
                    label := Some "Publishable";
                    conference := Some conf |})
              (glob_pdf (join_path pub_path conf))) confs)
  = flat_map (fun conf => glob_pdf (join_path pub_path conf)) confs.
Proof.
  induction confs as [ | conf confs IH ]; [ reflexivity | ].
  cbn [flat_map]. rewrite map_app, IH, map_map. cbn [path].
  now rewrite map_id.
Qed.

Lemma loaded_content {E : Externals} {F : FileSystem} (pub_path : string)
      (confs : list string) :
  Forall (fun paper => content paper = _extract_pdf_content (path paper))
    (flat_map
       (fun conf =>
          map (fun pdf_path =>
                 {| content := _extract_pdf_content pdf_path;
                    path := pdf_path;
                    is_reference := true;
                    label := Some "Publishable";
                    conference := Some conf |})
              (glob_pdf (join_path pub_path conf))) confs).
Proof.
  apply Forall_forall. intros paper Hin.
  apply in_flat_map in Hin. destruct Hin as [conf [_ Hin]].
  apply in_map_iff in Hin. now destruct Hin as [p [<- _]].
Qed.

(** X21: [load_dataset] returns the reference papers and the papers to
    classify in the order of the directories: the publishable ones
    conference by conference, in the order of [self.conferences], then
    the non-publishable ones.  Every reference paper is flagged as a
    reference and is either labelled ["Publishable"] with one of the
    five conferences or labelled ["NonPublishable"] without a
    conference; a paper to classify has no label and no conference;
    every paper holds the text extracted from its own path; and
    [self.reference_papers] becomes the list of reference papers. *)
Theorem load_dataset_shapes_the_papers :
  forall (E : Externals) (F : FileSystem) (base_path : string)
         (self : PaperClassifier),
    let loaded := load_dataset base_path self in
    let reference_papers := fst (fst loaded) in
    let papers_to_classify := snd (fst loaded) in
    let pub_path := join_path (join_path base_path "Reference") "Publishable" in
    Forall reference_shaped reference_papers
    /\ Forall candidate_shaped papers_to_classify
    /\ map path reference_papers
       = (flat_map (fun conf => glob_pdf (join_path pub_path conf)) conferences
          ++ glob_pdf (join_path (join_path base_path "Reference")
                                 "Non-Publishable"))%list
    /\ map path papers_to_classify = glob_pdf (join_path base_path "Papers")
    /\ Forall (fun paper => content paper = _extract_pdf_content (path paper))
              (reference_papers ++ papers_to_classify)
    /\ Self.reference_papers (snd loaded) = reference_papers
    /\ Self.vector_server (snd loaded) = Self.vector_server self.
Proof.
  intros E F base_path self loaded reference_papers papers_to_classify pub_path.
  subst reference_papers papers_to_classify loaded. unfold load_dataset.
  cbv zeta. cbn [fst snd Self.reference_papers Self.vector_server].
  fold pub_path. rewrite !load_loop_spec, load_conferences_spec.
  rewrite !app_nil_l.
  split; [ apply loaded_references_shaped; apply incl_refl | ].
  split.
  { apply Forall_forall. intros paper Hin.
    apply in_map_iff in Hin. destruct Hin as [p [<- _]].
    repeat split. }
  split.
  { rewrite map_app, flat_map_paths, map_map. cbn [path]. now rewrite map_id. }
  split.
  { rewrite map_map. cbn [path]. apply map_id. }
  split; [ | split; reflexivity ].
  rewrite <- app_assoc. rewrite Forall_app. split; [ apply loaded_content | ].
  apply Forall_forall. intros paper Hin.
  apply in_app_or in Hin. destruct Hin as [Hin | Hin];
    apply in_map_iff in Hin; now destruct Hin as [p [<- _]].
Qed.

Lemma reference_shaped_tag (paper : Paper) (s : Q) :
  reference_shaped paper ->
  unknown_tag {| score := s; metadata := doc_metadata (document_of paper) |}
  = None.
Proof.
  intros [_ [[Hlab [conf [Hconf Hin]]] | [Hlab Hconf]]];
    unfold unknown_tag, labelled_publishable, document_of;
    cbn [metadata doc_metadata Meta.label Meta.conference];
    rewrite Hlab, Hconf.
  - cbn [is_str truthy].
    assert (String.eqb conf EmptyString = false) as Hne.
    { unfold conferences in Hin. simpl in Hin.
      destruct Hin as [<- | [<- | [<- | [<- | [<- | []]]]]]; reflexivity. }
    rewrite Hne. apply known_conference in Hin. rewrite Hin.
    now destruct (String.eqb "Publishable" "Publishable").
  - reflexivity.
Qed.

(** X22: the reference papers [load_dataset] builds never make the
    scoring loop raise: when every neighbour carries the metadata that
    [_index_reference_papers] writes for one of them, no conference
    tag is outside the five and the loop returns its two score
    collections. *)
Theorem loaded_references_score_without_KeyError :
  forall (E : Externals) (F : FileSystem) (base_path : string)
         (self : PaperClassifier) (neighbors : list Neighbor),
    let reference_papers := fst (fst (load_dataset base_path self)) in
    (forall n, In n neighbors ->
       exists paper, In paper reference_papers
                     /\ metadata n = doc_metadata (document_of paper)) ->
    first_unknown_tag neighbors = None
    /\ Py.for_each score_step neighbors ([], empty_conference_scores)
       = inr (publishable_scores_of neighbors,
              map (fun conf => (conf, conference_scores_of conf neighbors))
                  conferences).
Proof.
  intros E F base_path self neighbors refs Hmeta.
  assert (Forall reference_shaped refs) as Hshape.
  { unfold refs, load_dataset. cbv zeta. cbn [fst snd].
    rewrite !load_loop_spec, load_conferences_spec. rewrite !app_nil_l.
    apply loaded_references_shaped. apply incl_refl. }
  assert (first_unknown_tag neighbors = None) as Hknown.
  { clear - Hmeta Hshape. rewrite Forall_forall in Hshape.
    induction neighbors as [ | n neighbors IH ]; [ reflexivity | ].
    cbn [first_unknown_tag].
    destruct (Hmeta n (or_introl eq_refl)) as [paper [Hin Hn]].
    assert (unknown_tag n = None) as Htag.
    { destruct n as [s md]. cbn [metadata] in Hn. subst md.
      apply reference_shaped_tag. now apply Hshape. }
    rewrite Htag. apply IH. intros n' Hn'. apply Hmeta. now right. }
  split; [ exact Hknown | ].
  pose proof (score_loop_outcome neighbors [] empty_conference_scores eq_refl)
    as Hloop.
  rewrite Hknown in Hloop. destruct Hloop as [ps [cs Hloop]].
  rewrite Hloop. f_equal.
  apply score_loop_spec in Hloop; [ | exact conferences_NoDup ].
  destruct Hloop as [-> ->].
  unfold empty_conference_scores. rewrite map_map. reflexivity.
Qed.

Lemma loaded_references_score_without_KeyError_witness :
  first_unknown_tag
    [ {| score := 9 # 10;
         metadata :=
           {| Meta.label := Some "Publishable";
              Meta.conference := Some "CVPR";
              Meta.path := "data/Reference/Publishable/CVPR/R006.pdf" |} |} ]
  = None.
Proof.
  refine (proj1 (@loaded_references_score_without_KeyError
                   (Demo.env Demo.span_a Demo.span_b) DemoFiles.files "data"
                   (Demo.self Demo.span_a Demo.span_b []) _ _)).
  intros n [<- | []]. eexists. split; [ left; reflexivity | reflexivity ].
Defined.
